(** * Replay detail focus area and dashboard widget library

    A shallow embedding of [static/app/views/replays/detail/focusArea.tsx]
    (the [FocusArea] component with its helper [getBreadcrumbsByCategory])
    and of the [WidgetLibrary] component that follows it in the same file.

    Plain data (spans, breadcrumbs, events, widgets) are JavaScript objects,
    modelled as finite maps from property names to values, because the code
    spreads and destructures them.  React hooks are modelled by a small monad
    that threads the component's hook state (the one [useMemo] cell), hands
    out fresh array references and records the calls a render makes. *)

From stdpp Require Import gmap strings list fin_maps.
From Stdlib Require Import ZArith.

Local Open Scope string_scope.
Local Open Scope list_scope.

(** ** JavaScript values *)

Module Js.

(** Numbers are only copied by the code under study, never computed with;
  integral values stand for them. *)
#[warnings="-register-all"]
Inductive JsVal : Type :=
| VUndefined
| VNull
| VBool (b : bool)
| VNum (n : Z)
| VStr (s : string)
| VArr (l : list JsVal)
| VObj (o : gmap string JsVal).

(** [o.k] on an object: a missing property reads as [undefined]. *)
Definition prop (o : gmap string JsVal) (k : string) : JsVal :=
default VUndefined (o !! k).

(** [v.k] (or [v?.k]) on a value that is expected to be an object. *)
Definition member (v : JsVal) (k : string) : JsVal :=
match v with
| VObj o => prop o k
| _ => VUndefined
end.

(** JavaScript truthiness. *)
Definition truthy (v : JsVal) : bool :=
match v with
| VUndefined | VNull => false
| VBool b => b
| VNum n => negb (n =? 0)%Z
| VStr s => negb (String.eqb s "")
| VArr _ | VObj _ => true
end.

(** [a || b] *)
Definition orElse (a b : JsVal) : JsVal := if truthy a then a else b.

(** [v === s] for a string [s]; also the comparison [includes] makes
  (SameValueZero) when one side is a string. *)
Definition eq_str (v : JsVal) (s : string) : bool :=
match v with
| VStr s' => String.eqb s' s
| _ => false
end.

(** [strs.includes(v)] for an array of strings. *)
Definition includes (strs : list string) (v : JsVal) : bool :=
existsb (eq_str v) strs.

(** [x ?? d]: [None] stands for a nullish left operand. *)
Definition nullish {A : Type} (x : option A) (d : A) : A := default d x.

(** Object identity: the address of an object that is compared by
  reference. *)
Definition ref : Type := nat.

(** An array whose identity is observed. *)
Record Arr (A : Type) : Type := mkArr { arr_ref : ref; arr_items : list A }.
Arguments mkArr {A} _ _.
Arguments arr_ref {A} _.
Arguments arr_items {A} _.

(** [switch (x) { case k1: ... case kn: ... default: ... }] where every case
  returns: the first case whose label equals the scrutinee is taken. *)
Fixpoint switch {A : Type} (x : string) (cases : list (string * A)) (dflt : A) : A :=
match cases with
| [] => dflt
| (k, body) :: rest => if String.eqb x k then body else switch x rest dflt
end.

End Js.
Import Js.

(** ** Domain types (declared outside this file in the repository) *)

Abbreviation JsObj := (gmap string JsVal).
Abbreviation ReplaySpan := (gmap string JsVal) (only parsing).
Abbreviation RawCrumb := (gmap string JsVal) (only parsing).
Abbreviation Event := (gmap string JsVal) (only parsing).
Abbreviation WidgetTemplate := (gmap string JsVal) (only parsing).

(** The members of the [ReplayReader] class that [FocusArea] uses.  A reader
    is compared by reference in the [useMemo] dependency list, so it carries
    its address. *)
Record ReplayReader : Type := mkReplayReader {
  replay_ref : ref;
  getEvent : Event;
  getRawCrumbs : list RawCrumb;
  getRawSpans : list ReplaySpan;
  isMemorySpan : ReplaySpan → bool;
  isNotMemorySpan : ReplaySpan → bool
}.

Record Organization : Type := mkOrganization { features : list string }.

(** What [useReplayContext()] hands out; the setters are function
    references. *)
Record ReplayContext : Type := mkReplayContext {
  currentTime : JsVal;
  currentHoverTime : JsVal;
  setCurrentTime : ref;
  setCurrentHoverTime : ref
}.

(** What the ambient hooks return during one render. *)
Record Env : Type := mkEnv {
  activeTab : string;          (* useActiveTabFromLocation() *)
  replayContext : ReplayContext; (* useReplayContext() *)
  organization : Organization  (* useOrganization() *)
}.

(** The elements [FocusArea] returns; [null] is [None] at the use site. *)
Inductive JSX : Type :=
| Placeholder (height : string)
| Console (breadcrumbs : list RawCrumb) (startTimestamp : JsVal)
| Spans (organization : Organization) (event : Event)
| Trace (organization : Organization) (event : Event)
| IssueList (replayId projectId : JsVal)
| TagsTable (generateUrl : JsVal → string) (event : Event) (query : string)
| MemoryChart (currentTime currentHoverTime : JsVal)
    (memorySpans : Arr ReplaySpan)
    (setCurrentTime setCurrentHoverTime : ref)
    (startTimestamp : JsVal).

(** ** The render monad *)

(** A dependency of the memo cell: [null] or the address of an object. *)
Definition Dep : Type := option ref.

(** The memoised value: [undefined] or an array. *)
Definition MemoVal : Type := option (Arr ReplaySpan).

Record Hooks : Type := mkHooks {
  memo_cell : option (list Dep * MemoVal);
  next_ref : ref
}.

(** The calls of one render, in program order. *)
Inductive Call : Type :=
| UseActiveTabFromLocation
| UseReplayContext
| UseOrganization
| FilterMemorySpans
| ReadyCheck (ready : bool)
| GetEvent
| SwitchActive (active : string)
| GetBreadcrumbsByCategory
| FilterNotMemorySpans.

Definition M (A : Type) : Type := Hooks → A * Hooks * list Call.

#[global] Instance M_ret : MRet M := λ A x h, (x, h, []).

#[global] Instance M_bind : MBind M := λ A B f m h,
  let '(a, h1, l1) := m h in
  let '(b, h2, l2) := f a h1 in
  (b, h2, l1 ++ l2).

Definition tell (c : Call) : M unit := λ h, (tt, h, [c]).

Definition get_cell : M (option (list Dep * MemoVal)) :=
  λ h, (memo_cell h, h, []).

Definition set_cell (c : list Dep * MemoVal) : M unit :=
  λ h, (tt, mkHooks (Some c) (next_ref h), []).

(** A new array: its reference is one never handed out before. *)
Definition new_array {A : Type} (items : list A) : M (Arr A) :=
  λ h, (mkArr (next_ref h) items, mkHooks (memo_cell h) (S (next_ref h)), []).

Definition result {A : Type} (r : A * Hooks * list Call) : A := r.1.1.
Definition hooks {A : Type} (r : A * Hooks * list Call) : Hooks := r.1.2.
Definition calls {A : Type} (r : A * Hooks * list Call) : list Call := r.2.

(** ** React's [useMemo] *)

(** [Object.is] on dependencies. *)
Definition objectIs (a b : Dep) : bool := bool_decide (a = b).

Fixpoint areHookInputsEqual (nextDeps prevDeps : list Dep) : bool :=
  match nextDeps, prevDeps with
  | a :: next, b :: prev => objectIs a b && areHookInputsEqual next prev
  | _, _ => true
  end.

(** On mount the value is computed and stored with its dependencies; on an
    update it is recomputed only when a dependency changed. *)
Definition useMemo (create : M MemoVal) (deps : list Dep) : M MemoVal :=
  cell ← get_cell;
  match cell with
  | Some (prevDeps, prevValue) =>
      if areHookInputsEqual deps prevDeps then mret prevValue
      else value ← create; set_cell (deps, value);; mret value
  | None => value ← create; set_cell (deps, value);; mret value
  end.

(** ** The component *)

Definition useActiveTabFromLocation (env : Env) : M string :=
  tell UseActiveTabFromLocation;; mret (activeTab env).

Definition useReplayContext (env : Env) : M ReplayContext :=
  tell UseReplayContext;; mret (replayContext env).

Definition useOrganization (env : Env) : M Organization :=
  tell UseOrganization;; mret (organization env).

(** [replay] as a [useMemo] dependency. *)
Definition identity (replay : option ReplayReader) : Dep := replay_ref <$> replay.

(** [({startTimestamp, endTimestamp, ...span}) => ({...span, timestamp:
    endTimestamp, start_timestamp: startTimestamp, parent_span_id:
    'replay_network_trace'})] *)
Definition networkSpan (raw : ReplaySpan) : JsObj :=
  let startTimestamp := prop raw "startTimestamp" in
  let endTimestamp := prop raw "endTimestamp" in
  let span := delete "endTimestamp" (delete "startTimestamp" raw) in
  <["parent_span_id" := VStr "replay_network_trace"]>
    (<["start_timestamp" := startTimestamp]>
       (<["timestamp" := endTimestamp]> span)).

Definition traceContext : JsObj :=
  list_to_map
    [ ("type", VStr "trace");
      ("op", VStr "Network");
      ("description", VStr "WIP");
      ("span_id", VStr "replay_network_trace");
      ("status", VStr "ok") ].

Section FocusArea.

(** Imported from [sentry/types/breadcrumbs] and [sentry/types/event]. *)
Variable isBreadcrumbTypeDefault : RawCrumb → bool.
Variable EntryType_SPANS : string.

Definition getBreadcrumbsByCategory
    (breadcrumbs : list RawCrumb) (categories : list string) : list RawCrumb :=
  List.filter
    (λ breadcrumb,
       includes categories (orElse (prop breadcrumb "category") (VStr "")))
    (List.filter isBreadcrumbTypeDefault breadcrumbs).

(** [useMemo(() => replay?.getRawSpans().filter(replay.isMemorySpan),
    [replay])] *)
Definition memorySpans (replay : option ReplayReader) : M MemoVal :=
  useMemo
    (match replay with
     | Some r =>
         tell FilterMemorySpans;;
         spans ← new_array (List.filter (isMemorySpan r) (getRawSpans r));
         mret (Some spans)
     | None => mret None
     end)
    [identity replay].

Definition nonMemorySpansEntry (replay : ReplayReader) : JsObj :=
  <["data" :=
      VArr (VObj <$> (networkSpan <$>
              List.filter (isNotMemorySpan replay) (getRawSpans replay)))]>
    (<["type" := VStr EntryType_SPANS]> ∅).

Definition performanceEvent (replay : ReplayReader) (event : Event) : Event :=
  <["entries" := VArr [VObj (nonMemorySpansEntry replay)]]>
    (<["contexts" := VObj (<["trace" := VObj traceContext]> ∅)]> event).

(** The [case] clauses of [switch (active)], in order. *)
Definition cases (ctx : ReplayContext) (organization : Organization)
    (replay : ReplayReader) (event : Event) (memorySpans : Arr ReplaySpan)
    : list (string * M (option JSX)) :=
  [ ("console",
     tell GetBreadcrumbsByCategory;;
     let consoleMessages :=
       getBreadcrumbsByCategory (getRawCrumbs replay) ["console"] in
     mret (Some (Console (nullish (Some consoleMessages) [])
                         (prop event "startTimestamp"))));
    ("network",
     tell FilterNotMemorySpans;;
     mret (Some (Spans organization (performanceEvent replay event))));
    ("trace", mret (Some (Trace organization event)));
    ("issues",
     mret (Some (IssueList (prop event "id") (prop event "projectID"))));
    ("tags", mret (Some (TagsTable (λ _, "") event "")));
    ("memory",
     mret (Some (MemoryChart
                   (currentTime ctx) (currentHoverTime ctx)
                   memorySpans
                   (setCurrentTime ctx) (setCurrentHoverTime ctx)
                   (prop event "startTimestamp")))) ].

Definition FocusArea (env : Env) (replay : option ReplayReader) : M (option JSX) :=
  active ← useActiveTabFromLocation env;
  ctx ← useReplayContext env;
  organization ← useOrganization env;
  memorySpans ← memorySpans replay;
  match replay, memorySpans with
  | Some replay, Some memorySpans =>
      tell (ReadyCheck true);;
      tell GetEvent;;
      let event := getEvent replay in
      tell (SwitchActive active);;
      switch active (cases ctx organization replay event memorySpans)
        (mret None)
  | _, _ =>
      tell (ReadyCheck false);;
      mret (Some (Placeholder "150px"))
  end.

(** The hook state when the component mounts, and after a sequence of
    renders. *)
Definition mount : Hooks := mkHooks None 0.

Definition render (h : Hooks) (r : Env * option ReplayReader) : Hooks :=
  hooks (FocusArea r.1 r.2 h).

Definition hooks_after (rs : list (Env * option ReplayReader)) : Hooks :=
  fold_left render rs mount.

End FocusArea.

(** ** The widget library *)

(** What a click handler does when it runs.  A callback handed to another
    function ([onConfirm]) is the list of calls its body makes. *)
#[warnings="-register-all"]
Inductive Action : Type :=
| onWidgetSelect (widget : WidgetTemplate)
| openWidgetBuilderOverwriteModal
    (onConfirm : list Action) (widget : WidgetTemplate) (iconColor : JsVal).

(** [<CardHoverWrapper key onClick><Card widget iconColor/></CardHoverWrapper>] *)
Record CardHoverWrapper : Type := mkCard {
  key : JsVal;
  onClick : list Action;
  card_widget : WidgetTemplate;
  card_iconColor : JsVal
}.

Section WidgetLibrary.

(** Imported from [sentry/views/dashboardsV2]; [getColorPalette] is
    [theme.charts.getColorPalette]. *)
Variable getTopNConvertedDefaultWidgets : list WidgetTemplate.
Variables WidgetType_RELEASE DisplayType_TOP_N DisplayType_TABLE : string.
Variable normalizeQueries : JsVal → JsVal → bool → JsVal → JsVal.
Variable getColorPalette : Z → list JsVal.

Definition getLibrarySelectionHandler (bypassOverwriteModal : bool)
    (widget : WidgetTemplate) (iconColor : JsVal) : list Action :=
  if bypassOverwriteModal then [onWidgetSelect widget]
  else [openWidgetBuilderOverwriteModal [onWidgetSelect widget] widget iconColor].

(** The widgets left after the feature gate. *)
Definition defaultWidgets (organization : Organization) : list WidgetTemplate :=
  let defaultWidgets := getTopNConvertedDefaultWidgets in
  if negb (includes (features organization) (VStr "dashboards-releases"))
  then List.filter
         (λ widget, negb (eq_str (prop widget "widgetType") WidgetType_RELEASE))
         defaultWidgets
  else defaultWidgets.

Definition newWidget (widgetBuilderNewDesign : bool)
    (widget : WidgetTemplate) : WidgetTemplate :=
  let displayType :=
    if widgetBuilderNewDesign
       && eq_str (prop widget "displayType") DisplayType_TOP_N
    then VStr DisplayType_TABLE
    else prop widget "displayType" in
  let normalizedQueries :=
    normalizeQueries displayType (prop widget "queries")
      widgetBuilderNewDesign (prop widget "widgetType") in
  <["queries" := normalizedQueries]> (<["displayType" := displayType]> widget).

(** The cards inside the wrapper; the header above them is fixed text. *)
Definition WidgetLibrary (bypassOverwriteModal widgetBuilderNewDesign : bool)
    (organization : Organization) : list CardHoverWrapper :=
  let defaultWidgets := defaultWidgets organization in
  imap
    (λ index widget,
       let iconColor :=
         default VUndefined
           (getColorPalette (Z.of_nat (length defaultWidgets) - 2) !! index) in
       let newWidget := newWidget widgetBuilderNewDesign widget in
       mkCard (prop widget "title")
              (getLibrarySelectionHandler bypassOverwriteModal newWidget iconColor)
              newWidget iconColor)
    defaultWidgets.

End WidgetLibrary.

(** The calls a handler makes itself, not those of the callbacks it hands
    on. *)
Definition calls_onWidgetSelect (handler : list Action) : list WidgetTemplate :=
  omap (λ a, match a with onWidgetSelect w => Some w | _ => None end) handler.

(** The readiness check of the component, [!(!replay || !memorySpans)]. *)
Definition ready (replay : option ReplayReader) (memorySpans : MemoVal) : bool :=
  match replay, memorySpans with
  | Some _, Some _ => true
  | _, _ => false
  end.

(** Whether the memo cell already holds a value for this [replay]. *)
Definition memo_hit (replay : option ReplayReader) (h : Hooks) : bool :=
  match memo_cell h with
  | Some (prevDeps, _) => areHookInputsEqual [identity replay] prevDeps
  | None => false
  end.

(** ** Hook-state invariant *)

(** The memo cell holds either [undefined], computed for a [null] replay, or
    an array handed out earlier that is the memory spans of a replay from
    [seen]. *)
Definition cell_inv (seen : ReplayReader → Prop) (h : Hooks) : Prop :=
  match memo_cell h with
  | None => True
  | Some (deps, None) => deps = [None]
  | Some (deps, Some a) =>
      arr_ref a < next_ref h ∧
      ∃ r, seen r ∧ deps = [Some (replay_ref r)] ∧
           arr_items a = List.filter (isMemorySpan r) (getRawSpans r)
  end.


(** ** Two statements of the specification, as worded *)

Section AsWorded.

Variable isBreadcrumbTypeDefault : RawCrumb → bool.
Variable EntryType_SPANS : string.

(** Only the inputs the active panel needs are computed: the memory panel
    does not compute the non-memory spans, and no other panel computes the
    memory spans. *)
Definition only_required_inputs_computed
    (env : Env) (replay : option ReplayReader) (h : Hooks) : Prop :=
  let log := calls (FocusArea isBreadcrumbTypeDefault EntryType_SPANS env replay h) in
  (activeTab env = "memory" → FilterNotMemorySpans ∉ log) ∧
  (activeTab env ≠ "memory" → FilterMemorySpans ∉ log).

(** Neither the active tab is resolved nor the panel looked up before the
    readiness check has succeeded. *)
Definition resolution_waits_for_readiness
    (env : Env) (replay : option ReplayReader) (h : Hooks) : Prop :=
  let log := calls (FocusArea isBreadcrumbTypeDefault EntryType_SPANS env replay h) in
  ∀ i c, log !! i = Some c →
    (c = UseActiveTabFromLocation ∨ ∃ k, c = SwitchActive k) →
    ∃ j, j < i ∧ log !! j = Some (ReadyCheck true).

End AsWorded.

(** ** Sample data *)

Module Scenario.

Definition console_crumb : RawCrumb :=
  list_to_map [("category", VStr "console"); ("message", VStr "x")].

Definition network_crumb : RawCrumb :=
  list_to_map [("category", VStr "network"); ("message", VStr "y")].

Definition memory_span : ReplaySpan :=
  list_to_map [("kind", VStr "memory"); ("value", VNum 1);
               ("startTimestamp", VNum 10); ("endTimestamp", VNum 20)].

Definition http_span : ReplaySpan :=
  list_to_map [("kind", VStr "http"); ("value", VNum 2);
               ("startTimestamp", VNum 30); ("endTimestamp", VNum 40)].

Definition is_memory (span : ReplaySpan) : bool :=
  eq_str (prop span "kind") "memory".

Definition replay_at (address : ref) : ReplayReader :=
  mkReplayReader address
    (list_to_map [("id", VStr "r1"); ("projectID", VStr "p1");
                  ("startTimestamp", VNum 5)])
    [console_crumb; network_crumb]
    [memory_span; http_span]
    is_memory
    (λ span, negb (is_memory span)).

Definition replay : ReplayReader := replay_at 1.

Definition env (tab : string) : Env :=
  mkEnv tab (mkReplayContext (VNum 0) VUndefined 7 8) (mkOrganization []).

(** Every breadcrumb type but [http] and [navigation] is a default one. *)
Definition is_default (crumb : RawCrumb) : bool :=
  negb (includes ["http"; "navigation"] (prop crumb "type")).

Definition release_widget : WidgetTemplate :=
  list_to_map [("title", VStr "Crash free"); ("widgetType", VStr "metrics");
               ("displayType", VStr "line"); ("queries", VArr [])].

Definition errors_widget : WidgetTemplate :=
  list_to_map [("title", VStr "Errors"); ("widgetType", VStr "discover");
               ("displayType", VStr "top_n"); ("queries", VArr [])].

Definition palette (n : Z) : list JsVal := [VStr "#444674"; VStr "#d6567f"].

Definition normalize (displayType queries : JsVal) (newDesign : bool)
    (widgetType : JsVal) : JsVal := queries.

(** The first render after mounting. *)
Definition first_render (tab : string) (replay : option ReplayReader)
    : option JSX * Hooks * list Call :=
  FocusArea is_default "spans" (env tab) replay mount.

(** The widget library over the two sample widgets. *)
Definition library (bypass : bool) (organization : Organization)
    : list CardHoverWrapper :=
  WidgetLibrary [release_widget; errors_widget] "metrics" "top_n" "table"
    normalize palette bypass true organization.

End Scenario.

(** ** The post-merge hook ([config/hooks/post-merge]) *)

Module PostMerge.

(** The line begins with the text. *)
Fixpoint starts_with (text line : string) : bool :=
  match text, line with
  | EmptyString, _ => true
  | String a text', String b line' => Ascii.eqb a b && starts_with text' line'
  | String _ _, EmptyString => false
  end.

(** An unanchored [grep] for a literal text: it occurs somewhere in the
    line. *)
Fixpoint contains (text line : string) : bool :=
  starts_with text line ||
  match line with
  | EmptyString => false
  | String _ line' => contains text line'
  end.

(** [grep -E --quiet pattern file]: some line of the file matches.  A
    pattern is given by the literal texts its alternatives stand for:
    ['requirements-(base|dev)\.txt'] is either of two texts. *)
Definition grep_quiet (alternatives : list string) (file : list string) : bool :=
  existsb (λ line, existsb (λ text, contains text line) alternatives) file.

Definition requirements : list string :=
  ["requirements-base.txt"; "requirements-dev.txt"].
Definition yarn_lock : list string := ["yarn.lock"].
Definition migrations : list string := ["migrations"].

(** What the script reads from its environment.  It never initialises [pc],
    [py], [js], [migrations] and [needs_update], so they start with the
    values they have in the environment (empty when unset); the four colour
    codes are what [tput] prints. *)
Record Environment : Type := mkEnvironment {
  env_pc : string;
  env_py : string;
  env_js : string;
  env_migrations : string;
  env_needs_update : string;
  SENTRY_POST_MERGE_AUTO_UPDATE : string;
  red : string;
  yellow : string;
  bold : string;
  reset : string
}.

(** [[[ "$x" ]]]: the text is not empty. *)
Definition nonempty (x : string) : bool := negb (String.eqb x "").

Definition nl : string := String (Ascii.ascii_of_nat 10) EmptyString.

(** The here-document. *)
Definition message (e : Environment) (update_command : string) : string :=
  nl +:+ "[" +:+ red e +:+ bold e +:+ "!!!" +:+ reset e +:+ "] " +:+ red e
  +:+ " It looks like some dependencies have changed that will require your intervention. Run the following to update:"
  +:+ reset e +:+ nl +:+ nl
  +:+ "    " +:+ red e +:+ bold e +:+ update_command +:+ reset e +:+ nl +:+ nl
  +:+ yellow e
  +:+ "If you want these commands to automatically be executed after pulling code you can export the SENTRY_POST_MERGE_AUTO_UPDATE variable."
  +:+ reset e +:+ nl +:+ nl.

Inductive Effect : Type :=
| Print (text : string)     (* [cat] of the here-document *)
| Run (command : string).   (* [$update_command], expanded by the shell *)

Definition py (e : Environment) (files_changed_upstream : list string) : string :=
  if grep_quiet requirements files_changed_upstream
  then "install-py-dev " else env_py e.

Definition js (e : Environment) (files_changed_upstream : list string) : string :=
  if grep_quiet yarn_lock files_changed_upstream
  then "install-js-dev " else env_js e.

Definition migrations_target (e : Environment)
    (files_changed_upstream : list string) : string :=
  if grep_quiet migrations files_changed_upstream
  then "apply-migrations " else env_migrations e.

Definition needs_update (e : Environment)
    (files_changed_upstream : list string) : string :=
  if nonempty (env_pc e) || nonempty (py e files_changed_upstream)
     || nonempty (js e files_changed_upstream)
     || nonempty (migrations_target e files_changed_upstream)
  then "1" else env_needs_update e.

Definition update_command (e : Environment)
    (files_changed_upstream : list string) : string :=
  "make " +:+ env_pc e +:+ py e files_changed_upstream
  +:+ js e files_changed_upstream
  +:+ migrations_target e files_changed_upstream.

(** The script, from the list of changed paths that [git diff-tree] wrote,
    one a line. *)
Definition post_merge (e : Environment)
    (files_changed_upstream : list string) : list Effect :=
  let needs_update := needs_update e files_changed_upstream in
  let update_command := update_command e files_changed_upstream in
  (if nonempty needs_update then [Print (message e update_command)] else [])
  ++ (if nonempty (SENTRY_POST_MERGE_AUTO_UPDATE e) && nonempty needs_update
      then [Run update_command] else []).

(** No variable of the script is set in the environment. *)
Definition clean (e : Environment) : Prop :=
  env_pc e = "" ∧ env_py e = "" ∧ env_js e = "" ∧ env_migrations e = ""
  ∧ env_needs_update e = "".

(** The text occurs in the line. *)
Definition occurs (text line : string) : Prop :=
  ∃ before after, line = before +:+ text +:+ after.

(** Some changed path has one of the texts in it. *)
Definition changed (alternatives : list string) (file : list string) : Prop :=
  ∃ line text, line ∈ file ∧ text ∈ alternatives ∧ occurs text line.

Definition sample_environment (auto : string) : Environment :=
  mkEnvironment "" "" "" "" "" auto "<r>" "<y>" "<b>" "<0>".

Definition sample_files : list string :=
  ["README.md"; "requirements-dev.txt";
   "src/sentry/migrations/0300_fix.py"].


End PostMerge.

(** ** Lazily loaded route components ([routes.tsx]) *)

(** The attribute names React takes out of the attributes of a JSX
    expression when it builds the element: they never reach its props. *)
Definition RESERVED_PROPS : list string := ["key"; "ref"; "__self"; "__source"].

(** The props of the element built from the attributes [config].  The
    component is taken to declare no default props ([SafeLazyLoad] is
    [errorHandler(LazyLoad)], imported). *)
Definition element_props {V : Type} (config : gmap string V) : gmap string V :=
  filter (λ kv, kv.1 ∉ RESERVED_PROPS) config.

(** [makeLazyloadComponent(resolve)(componentProps)]: the props of the
    element [<SafeLazyLoad component={resolve} {...componentProps} />],
    whose attributes are [{component: resolve, ...componentProps}]. *)
Definition makeLazyloadComponent {V : Type}
    (resolve : V) (componentProps : gmap string V) : gmap string V :=
  element_props (componentProps ∪ {["component" := resolve]}).

(** ** The memory panel's input, as the specification words it *)

Section MemoryPanelAsWorded.

Variable isBreadcrumbTypeDefault : RawCrumb → bool.
Variable EntryType_SPANS : string.


End MemoryPanelAsWorded.


(** ** Tactics *)

(** Closes a goal from a membership [H : c ∈ l] in a list of calls that are
    all different from [c]. *)
Ltac no_such_call H :=
  repeat (apply elem_of_cons in H as [H|H]; [discriminate H|]);
  by apply elem_of_nil in H.

(** * Properties *)

(** ** Running the monad *)

Lemma switch_default {A : Type} (x : string) (cs : list (string * A)) (dflt : A) :
  x ∉ cs.*1 → switch x cs dflt = dflt.
Proof.
  induction cs as [|[k body] rest IH]; simpl; [done|].
  intros Hx. apply not_elem_of_cons in Hx as [Hk Hrest].
  destruct (String.eqb_spec x k); [done|]. by apply IH.
Qed.

Lemma memorySpans_run replay h :
  memorySpans replay h =
    let compute :=
      match replay with
      | Some r =>
          let a := mkArr (next_ref h)
                     (List.filter (isMemorySpan r) (getRawSpans r)) in
          (Some a, mkHooks (Some ([identity replay], Some a)) (S (next_ref h)),
           [FilterMemorySpans])
      | None => (None, mkHooks (Some ([identity replay], None)) (next_ref h), [])
      end in
    match memo_cell h with
    | Some (prevDeps, prevValue) =>
        if areHookInputsEqual [identity replay] prevDeps
        then (prevValue, h, [])
        else compute
    | None => compute
    end.
Proof.
  unfold memorySpans, useMemo, mbind, M_bind, mret, M_ret, get_cell, set_cell,
    tell, new_array.
  destruct (memo_cell h) as [[prevDeps prevValue]|].
  - destruct (areHookInputsEqual [identity replay] prevDeps); [done|].
    by destruct replay.
  - by destruct replay.
Qed.

Lemma areHookInputsEqual_single (d d' : Dep) :
  areHookInputsEqual [d] [d'] = true ↔ d = d'.
Proof.
  simpl. unfold objectIs. rewrite andb_true_r. apply bool_decide_eq_true.
Qed.

Section Run.

Variable isBreadcrumbTypeDefault : RawCrumb → bool.
Variable EntryType_SPANS : string.

Lemma cases_keys ctx org r ev a :
  (cases isBreadcrumbTypeDefault EntryType_SPANS ctx org r ev a).*1
  = ["console"; "network"; "trace"; "issues"; "tags"; "memory"].
Proof. reflexivity. Qed.

(** A panel neither touches the hook state nor computes anything but its
    own input. *)
Lemma switch_cases_run ctx org r ev a x h :
  ∃ out,
    switch x (cases isBreadcrumbTypeDefault EntryType_SPANS ctx org r ev a)
      (mret None) h
    = (out, h,
       if String.eqb x "console" then [GetBreadcrumbsByCategory]
       else if String.eqb x "network" then [FilterNotMemorySpans]
       else []).
Proof.
  unfold cases. cbn [switch].
  repeat (destruct (String.eqb x _); [eexists; reflexivity|]).
  eexists; reflexivity.
Qed.

Lemma FocusArea_run env replay h :
  FocusArea isBreadcrumbTypeDefault EntryType_SPANS env replay h =
   let '(ms, h1, l) := memorySpans replay h in
   match replay, ms with
   | Some r, Some a =>
      let '(out, h2, pl) :=
        switch (activeTab env)
          (cases isBreadcrumbTypeDefault EntryType_SPANS
             (replayContext env) (organization env) r (getEvent r) a)
          (mret None) h1 in
      (out, h2,
       [UseActiveTabFromLocation; UseReplayContext; UseOrganization] ++ l ++
       [ReadyCheck true; GetEvent; SwitchActive (activeTab env)] ++ pl)
   | _, _ =>
      (Some (Placeholder "150px"), h1,
       [UseActiveTabFromLocation; UseReplayContext; UseOrganization] ++ l ++
       [ReadyCheck false])
   end.
Proof.
  unfold FocusArea.
  unfold mbind, M_bind at 1 2 3 4.
  unfold useActiveTabFromLocation, useReplayContext, useOrganization.
  unfold mbind, M_bind at 1 2 3. cbn [tell mret M_ret].
  destruct (memorySpans replay h) as [[ms h1] l].
  destruct replay as [r|], ms as [a|]; try reflexivity.
  unfold mbind, M_bind, tell.
  match goal with
  | |- context [switch ?x ?c ?d h1] =>
      destruct (switch x c d h1) as [[out h2] pl]
  end.
  reflexivity.
Qed.

(** The hook state after a render is the one [memorySpans] leaves. *)
Lemma FocusArea_hooks env replay h :
  hooks (FocusArea isBreadcrumbTypeDefault EntryType_SPANS env replay h)
  = hooks (memorySpans replay h).
Proof.
  rewrite FocusArea_run.
  destruct (memorySpans replay h) as [[ms h1] l].
  destruct replay as [r|], ms as [a|]; try reflexivity.
  destruct (switch_cases_run (replayContext env) (organization env) r
              (getEvent r) a (activeTab env) h1) as [out ->].
  reflexivity.
Qed.

(** *** The invariant holds in every state the component reaches *)

Lemma cell_inv_mono (P Q : ReplayReader → Prop) h :
  (∀ r, P r → Q r) → cell_inv P h → cell_inv Q h.
Proof.
  unfold cell_inv. intros HPQ.
  destruct (memo_cell h) as [[deps [a|]]|]; [|done..].
  intros [Hlt (r & Hr & Hd & Hi)]. split; [done|]. exists r. auto.
Qed.

Lemma memorySpans_inv (seen : ReplayReader → Prop) replay h :
  (∀ r, replay = Some r → seen r) →
  cell_inv seen h → cell_inv seen (hooks (memorySpans replay h)).
Proof.
  intros Hseen Hinv. rewrite memorySpans_run. cbv zeta.
  assert (Hcompute : cell_inv seen (hooks
    match replay with
    | Some r =>
        (Some (mkArr (next_ref h) (List.filter (isMemorySpan r) (getRawSpans r))),
         mkHooks (Some ([identity replay],
                        Some (mkArr (next_ref h)
                                (List.filter (isMemorySpan r) (getRawSpans r)))))
                 (S (next_ref h)),
         [FilterMemorySpans])
    | None => (None, mkHooks (Some ([identity replay], None)) (next_ref h), [])
    end)).
  { destruct replay as [r|]; unfold cell_inv, hooks; simpl; [|done].
    split; [lia|]. exists r. auto. }
  destruct (memo_cell h) as [[prevDeps prevValue]|] eqn:Hcell; [|done].
  destruct (areHookInputsEqual [identity replay] prevDeps); done.
Qed.

Lemma fold_render_inv (seen : ReplayReader → Prop) rs h :
  (∀ r, Some r ∈ rs.*2 → seen r) →
  cell_inv seen h →
  cell_inv seen (fold_left (render isBreadcrumbTypeDefault EntryType_SPANS) rs h).
Proof.
  revert h. induction rs as [|[env replay] rs IH]; intros h Hseen Hinv; [done|].
  simpl. apply IH.
  - intros r Hr. apply Hseen. simpl. by right.
  - unfold render. simpl. rewrite FocusArea_hooks.
    apply memorySpans_inv; [|done].
    intros r ->. apply Hseen. simpl. by left.
Qed.

Lemma hooks_after_inv rs :
  cell_inv (λ r, Some r ∈ rs.*2)
    (hooks_after isBreadcrumbTypeDefault EntryType_SPANS rs).
Proof. apply fold_render_inv; done. Qed.

(** With the invariant, an available replay always has its memory spans. *)
Lemma memorySpans_available (seen : ReplayReader → Prop) r h :
  cell_inv seen h →
  ∃ a, result (memorySpans (Some r) h) = Some a.
Proof.
  intros Hinv. rewrite memorySpans_run. cbv zeta.
  unfold cell_inv in Hinv.
  destruct (memo_cell h) as [[prevDeps prevValue]|]; [|by eexists].
  destruct (areHookInputsEqual [identity (Some r)] prevDeps) eqn:Heq;
    [|by eexists].
  destruct prevValue as [a|]; [by eexists|].
  subst prevDeps. apply areHookInputsEqual_single in Heq. done.
Qed.

End Run.

(** ** The breadcrumb filter *)

Section Breadcrumbs.

Variable isBreadcrumbTypeDefault : RawCrumb → bool.

Lemma includes_spec (strs : list string) (v : JsVal) :
  includes strs v = true ↔ ∃ s, v = VStr s ∧ s ∈ strs.
Proof.
  unfold includes. rewrite existsb_exists. split.
  - intros (s & Hin & Heq). destruct v; simpl in Heq; try done.
    apply String.eqb_eq in Heq as ->. exists s.
    by rewrite list_elem_of_In.
  - intros (s & -> & Hin). exists s. rewrite <- list_elem_of_In.
    split; [done|]. simpl. apply String.eqb_refl.
Qed.

Lemma orElse_category_console (v : JsVal) :
  orElse v (VStr "") = VStr "console" ↔ v = VStr "console".
Proof.
  unfold orElse. split.
  - destruct (truthy v); [done|]. intros [=].
  - by intros ->.
Qed.

Lemma elem_of_getBreadcrumbsByCategory breadcrumbs categories b :
  b ∈ getBreadcrumbsByCategory isBreadcrumbTypeDefault breadcrumbs categories
  ↔ b ∈ breadcrumbs ∧ isBreadcrumbTypeDefault b = true ∧
    ∃ c, orElse (prop b "category") (VStr "") = VStr c ∧ c ∈ categories.
Proof.
  unfold getBreadcrumbsByCategory.
  rewrite !list_elem_of_In, !filter_In, includes_spec, <- list_elem_of_In.
  tauto.
Qed.

(** C9: [getBreadcrumbsByCategory] keeps exactly the breadcrumbs, in their
    order, that pass [isBreadcrumbTypeDefault] and whose category, read as
    the empty string when it is absent, is among the requested ones.  So a
    breadcrumb that fails the type predicate is never returned, whatever
    its category, and one without a category is returned exactly when it
    passes the predicate and the empty string is requested. *)
Theorem getBreadcrumbsByCategory_spec
    (breadcrumbs : list RawCrumb) (categories : list string) :
  getBreadcrumbsByCategory isBreadcrumbTypeDefault breadcrumbs categories
  = List.filter
      (λ b, isBreadcrumbTypeDefault b
            && includes categories (orElse (prop b "category") (VStr "")))
      breadcrumbs
  ∧ (∀ b, b ∈ getBreadcrumbsByCategory isBreadcrumbTypeDefault breadcrumbs categories
        ↔ b ∈ breadcrumbs ∧ isBreadcrumbTypeDefault b = true ∧
          ∃ c, orElse (prop b "category") (VStr "") = VStr c ∧ c ∈ categories)
  ∧ (∀ b, isBreadcrumbTypeDefault b = false →
        b ∉ getBreadcrumbsByCategory isBreadcrumbTypeDefault breadcrumbs categories)
  ∧ (∀ b, b !! "category" = None →
        (b ∈ getBreadcrumbsByCategory isBreadcrumbTypeDefault breadcrumbs categories
         ↔ b ∈ breadcrumbs ∧ isBreadcrumbTypeDefault b = true ∧ "" ∈ categories)).
Proof.
  split; [|split; [|split]].
  - unfold getBreadcrumbsByCategory.
    induction breadcrumbs as [|b bs IH]; [done|]. simpl.
    destruct (isBreadcrumbTypeDefault b); simpl; [|done].
    destruct (includes _ _); by rewrite IH.
  - apply elem_of_getBreadcrumbsByCategory.
  - intros b Hb. rewrite elem_of_getBreadcrumbsByCategory.
    intros (_ & Hd & _). congruence.
  - intros b Hb. rewrite elem_of_getBreadcrumbsByCategory.
    unfold prop. rewrite Hb. simpl. unfold orElse. simpl.
    split.
    + intros (? & ? & c & [= <-] & ?). done.
    + intros (? & ? & ?). eauto.
Qed.

End Breadcrumbs.

(** ** What the dispatcher returns *)

Section Dispatch.

Variable isBreadcrumbTypeDefault : RawCrumb → bool.
Variable EntryType_SPANS : string.

(** A render with an available replay, in a state the component reaches,
    gets past the readiness check to the [switch]. *)
Lemma FocusArea_ready rs env r :
  ∃ a,
    result (memorySpans (Some r)
              (hooks_after isBreadcrumbTypeDefault EntryType_SPANS rs)) = Some a
    ∧ result (FocusArea isBreadcrumbTypeDefault EntryType_SPANS env (Some r)
                (hooks_after isBreadcrumbTypeDefault EntryType_SPANS rs))
      = result (switch (activeTab env)
                  (cases isBreadcrumbTypeDefault EntryType_SPANS
                     (replayContext env) (organization env) r (getEvent r) a)
                  (mret None)
                  (hooks (memorySpans (Some r)
                     (hooks_after isBreadcrumbTypeDefault EntryType_SPANS rs)))).
Proof.
  destruct (memorySpans_available _ r _
              (hooks_after_inv isBreadcrumbTypeDefault EntryType_SPANS rs))
    as [a Ha].
  exists a. split; [done|].
  rewrite FocusArea_run.
  destruct (memorySpans (Some r) _) as [[ms h1] l].
  unfold result in Ha. simpl in Ha. subst ms.
  unfold hooks at 1. cbn [fst snd].
  match goal with
  | |- context [switch ?x ?c ?d h1] =>
      destruct (switch x c d h1) as [[out h2] pl]
  end.
  reflexivity.
Qed.

(** C1: when the replay is [null] the component returns the placeholder,
    whatever the active tab, the rest of the environment and the hook
    state. *)
Theorem placeholder_when_replay_unavailable (env : Env) (h : Hooks) :
  result (FocusArea isBreadcrumbTypeDefault EntryType_SPANS env None h)
  = Some (Placeholder "150px").
Proof.
  rewrite FocusArea_run.
  destruct (memorySpans None h) as [[ms h1] l]. reflexivity.
Qed.

(** C2: with the replay available, an active tab that is none of the six
    [case] labels makes the component return [null]; the render returns
    normally. *)
Theorem null_for_unregistered_tab
    (rs : list (Env * option ReplayReader)) (env : Env) (r : ReplayReader) :
  activeTab env ∉ ["console"; "network"; "trace"; "issues"; "tags"; "memory"] →
  result (FocusArea isBreadcrumbTypeDefault EntryType_SPANS env (Some r)
            (hooks_after isBreadcrumbTypeDefault EntryType_SPANS rs))
  = None.
Proof.
  intros Hkey.
  destruct (FocusArea_ready rs env r) as (a & _ & ->).
  rewrite switch_default; [done|]. by rewrite cases_keys.
Qed.

(** C4: on the console tab the [Console] panel is given
    [getBreadcrumbsByCategory(replay.getRawCrumbs(), ['console'])]: every
    breadcrumb it receives is one of the replay's and has category
    ['console'].  For a replay with one console and one network breadcrumb
    the panel receives the console one alone (and nothing if that
    breadcrumb fails the type predicate). *)
Theorem console_panel_receives_console_breadcrumbs
    (rs : list (Env * option ReplayReader)) (env : Env) (r : ReplayReader) :
  activeTab env = "console" →
  ∃ crumbs,
    result (FocusArea isBreadcrumbTypeDefault EntryType_SPANS env (Some r)
              (hooks_after isBreadcrumbTypeDefault EntryType_SPANS rs))
    = Some (Console crumbs (prop (getEvent r) "startTimestamp"))
    ∧ crumbs = getBreadcrumbsByCategory isBreadcrumbTypeDefault
                 (getRawCrumbs r) ["console"]
    ∧ (∀ b, b ∈ crumbs →
            b ∈ getRawCrumbs r ∧ prop b "category" = VStr "console")
    ∧ (∀ c n, getRawCrumbs r = [c; n] →
            prop c "category" = VStr "console" →
            prop n "category" = VStr "network" →
            crumbs = if isBreadcrumbTypeDefault c then [c] else []).
Proof.
  intros Hactive.
  destruct (FocusArea_ready rs env r) as (a & _ & Hrun).
  eexists. split; [|split; [reflexivity|split]].
  - rewrite Hrun, Hactive. reflexivity.
  - intros b Hb. apply elem_of_getBreadcrumbsByCategory in Hb
      as (Hin & _ & c & Hc & Hcat).
    split; [done|].
    apply list_elem_of_singleton in Hcat as ->.
    by apply orElse_category_console.
  - intros c n Hraw Hc Hn. rewrite Hraw.
    unfold getBreadcrumbsByCategory. simpl.
    destruct (isBreadcrumbTypeDefault c), (isBreadcrumbTypeDefault n);
      simpl; rewrite ?Hc, ?Hn; reflexivity.
Qed.


End Dispatch.

(** ** The network panel's synthetic event *)

Lemma networkSpan_spec (raw : ReplaySpan) :
  prop (networkSpan raw) "parent_span_id" = VStr "replay_network_trace"
  ∧ prop (networkSpan raw) "timestamp" = prop raw "endTimestamp"
  ∧ prop (networkSpan raw) "start_timestamp" = prop raw "startTimestamp"
  ∧ ∀ k, k ∉ ["parent_span_id"; "start_timestamp"; "timestamp";
               "endTimestamp"; "startTimestamp"] →
         prop (networkSpan raw) k = prop raw k.
Proof.
  unfold networkSpan, prop. repeat split.
  - by rewrite lookup_insert_eq.
  - rewrite lookup_insert_ne, lookup_insert_ne, lookup_insert_eq; done.
  - rewrite lookup_insert_ne, lookup_insert_eq; done.
  - intros k Hk. rewrite !not_elem_of_cons in Hk.
    destruct Hk as (? & ? & ? & ? & ? & _).
    rewrite !lookup_insert_ne, !lookup_delete_ne; done.
Qed.

Section Network.

Variable isBreadcrumbTypeDefault : RawCrumb → bool.
Variable EntryType_SPANS : string.

(** C8: on the network tab the [Spans] view is given the replay's event
    with two properties replaced: [contexts], whose [trace] has [span_id]
    ['replay_network_trace'], and [entries], a single entry of type
    [EntryType.SPANS].  The entry's data are, in order, the raw spans that
    pass [isNotMemorySpan], each rewritten so that [parent_span_id] is
    ['replay_network_trace'], [timestamp] is the raw [endTimestamp] and
    [start_timestamp] is the raw [startTimestamp]. *)
Theorem network_panel_receives_fake_trace
    (rs : list (Env * option ReplayReader)) (env : Env) (r : ReplayReader) :
  activeTab env = "network" →
  ∃ event entry spans,
    result (FocusArea isBreadcrumbTypeDefault EntryType_SPANS env (Some r)
              (hooks_after isBreadcrumbTypeDefault EntryType_SPANS rs))
    = Some (Spans (organization env) event)
    ∧ member (member (prop event "contexts") "trace") "span_id"
      = VStr "replay_network_trace"
    ∧ prop event "entries" = VArr [VObj entry]
    ∧ prop entry "type" = VStr EntryType_SPANS
    ∧ prop entry "data" = VArr (VObj <$> spans)
    ∧ Forall2
        (λ raw span,
           raw ∈ getRawSpans r
           ∧ isNotMemorySpan r raw = true
           ∧ prop span "parent_span_id" = VStr "replay_network_trace"
           ∧ prop span "timestamp" = prop raw "endTimestamp"
           ∧ prop span "start_timestamp" = prop raw "startTimestamp")
        (List.filter (isNotMemorySpan r) (getRawSpans r)) spans.
Proof.
  intros Hactive.
  destruct (FocusArea_ready isBreadcrumbTypeDefault EntryType_SPANS rs env r)
    as (a & _ & Hrun).
  exists (performanceEvent EntryType_SPANS r (getEvent r)),
         (nonMemorySpansEntry EntryType_SPANS r),
         (networkSpan <$> List.filter (isNotMemorySpan r) (getRawSpans r)).
  split; [|split; [|split; [|split; [|split]]]].
  - rewrite Hrun, Hactive. reflexivity.
  - unfold performanceEvent, prop.
    rewrite lookup_insert_ne, lookup_insert_eq; done.
  - unfold performanceEvent, prop. by rewrite lookup_insert_eq.
  - unfold nonMemorySpansEntry, prop.
    rewrite lookup_insert_ne, lookup_insert_eq; done.
  - unfold nonMemorySpansEntry, prop. by rewrite lookup_insert_eq.
  - apply Forall2_fmap_r, Forall_Forall2_diag, Forall_forall.
    intros raw Hraw.
    apply list_elem_of_In, filter_In in Hraw as [Hin Hnot].
    apply list_elem_of_In in Hin.
    pose proof (networkSpan_spec raw) as (? & ? & ? & _). done.
Qed.

End Network.

(** ** The memo cell *)

Section Memo.

Variable isBreadcrumbTypeDefault : RawCrumb → bool.
Variable EntryType_SPANS : string.

(** C5: the memoised memory spans are keyed on the identity of [replay].
    In a state the component reaches, an access for replay [A] followed by
    an access for a replay with the same reference returns the same array
    (same reference) without running the filter and leaves the hook state
    alone; followed by an access for a replay with another reference it
    runs the filter and returns a new array, whose reference differs from
    that of the array returned for [A]. *)
Theorem memorySpans_keyed_on_replay_identity
    (rs : list (Env * option ReplayReader)) (A B : ReplayReader) :
  let first :=
    memorySpans (Some A) (hooks_after isBreadcrumbTypeDefault EntryType_SPANS rs) in
  let second := memorySpans (Some B) (hooks first) in
  (replay_ref B = replay_ref A →
     result second = result first ∧ calls second = [] ∧
     hooks second = hooks first)
  ∧ (replay_ref B ≠ replay_ref A →
     calls second = [FilterMemorySpans] ∧
     ∃ a b, result first = Some a ∧ result second = Some b ∧
            arr_ref b ≠ arr_ref a ∧
            arr_items b = List.filter (isMemorySpan B) (getRawSpans B)).
Proof.
  intros first second.
  pose proof (hooks_after_inv isBreadcrumbTypeDefault EntryType_SPANS rs) as Hinv.
  assert (Hfirst : ∃ a,
    result first = Some a ∧
    memo_cell (hooks first) = Some ([Some (replay_ref A)], Some a) ∧
    arr_ref a < next_ref (hooks first)).
  { subst first. rewrite memorySpans_run. cbv zeta.
    unfold cell_inv in Hinv.
    destruct (memo_cell _) as [[prevDeps prevValue]|] eqn:Hcell;
      [|eexists; repeat split; simpl; lia].
    destruct (areHookInputsEqual _ prevDeps) eqn:Heq;
      [|eexists; repeat split; simpl; lia].
    destruct prevValue as [a|].
    - destruct Hinv as (Hlt & r' & _ & -> & _).
      apply areHookInputsEqual_single in Heq. simpl in Heq.
      injection Heq as Href. exists a.
      unfold result, hooks; simpl. rewrite Hcell, Href. done.
    - subst prevDeps. by apply areHookInputsEqual_single in Heq. }
  destruct Hfirst as (a & Hres & Hcell & Hlt).
  subst second. rewrite (memorySpans_run (Some B)). cbv zeta.
  rewrite Hcell. split.
  - intros Href.
    replace (areHookInputsEqual [identity (Some B)] [Some (replay_ref A)])
      with true
      by (symmetry; apply areHookInputsEqual_single; simpl; by rewrite Href).
    by rewrite Hres.
  - intros Href.
    replace (areHookInputsEqual [identity (Some B)] [Some (replay_ref A)])
      with false.
    2:{ symmetry. apply not_true_iff_false.
        rewrite areHookInputsEqual_single. simpl. congruence. }
    split; [done|]. eexists a, _. split; [done|]. split; [done|].
    simpl. split; [lia|done].
Qed.

End Memo.

(** ** The calls of one render *)

Lemma memorySpans_calls replay h :
  calls (memorySpans replay h)
  = if memo_hit replay h then []
    else match replay with Some _ => [FilterMemorySpans] | None => [] end.
Proof.
  rewrite memorySpans_run. cbv zeta. unfold memo_hit.
  destruct (memo_cell h) as [[prevDeps prevValue]|].
  - destruct (areHookInputsEqual _ _); [done|]. by destruct replay.
  - by destruct replay.
Qed.

Section Calls.

Variable isBreadcrumbTypeDefault : RawCrumb → bool.
Variable EntryType_SPANS : string.

Lemma FocusArea_calls env replay h :
  calls (FocusArea isBreadcrumbTypeDefault EntryType_SPANS env replay h)
  = [UseActiveTabFromLocation; UseReplayContext; UseOrganization]
    ++ calls (memorySpans replay h)
    ++ (if ready replay (result (memorySpans replay h))
        then [ReadyCheck true; GetEvent; SwitchActive (activeTab env)]
             ++ (if String.eqb (activeTab env) "console"
                 then [GetBreadcrumbsByCategory]
                 else if String.eqb (activeTab env) "network"
                      then [FilterNotMemorySpans]
                      else [])
        else [ReadyCheck false]).
Proof.
  rewrite FocusArea_run.
  destruct (memorySpans replay h) as [[ms h1] l].
  unfold result, calls; cbn [fst snd].
  destruct replay as [r|], ms as [a|]; try reflexivity.
  destruct (switch_cases_run isBreadcrumbTypeDefault EntryType_SPANS
              (replayContext env) (organization env) r
              (getEvent r) a (activeTab env) h1) as [out ->].
  reflexivity.
Qed.

Lemma FocusArea_not_ready env replay h :
  ready replay (result (memorySpans replay h)) = false →
  result (FocusArea isBreadcrumbTypeDefault EntryType_SPANS env replay h)
  = Some (Placeholder "150px").
Proof.
  rewrite FocusArea_run.
  destruct (memorySpans replay h) as [[ms h1] l].
  unfold result; cbn [fst snd].
  by destruct replay as [r|], ms as [a|].
Qed.

(** C6: the non-memory spans are computed only in a render that passes
    the readiness check with the network tab active, so never for the
    memory panel.  The memory spans are computed by the memoised hook at
    the top of the component, whatever the active tab: in a render exactly
    when the replay is available and the memo cell holds no value for
    it. *)
Theorem derived_inputs_computed
    (env : Env) (replay : option ReplayReader) (h : Hooks) :
  let log := calls (FocusArea isBreadcrumbTypeDefault EntryType_SPANS env replay h) in
  (FilterNotMemorySpans ∈ log ↔
     activeTab env = "network" ∧
     ready replay (result (memorySpans replay h)) = true)
  ∧ (FilterMemorySpans ∈ log ↔ is_Some replay ∧ memo_hit replay h = false)
  ∧ (activeTab env = "memory" → FilterNotMemorySpans ∉ log).
Proof.
  intros log. subst log.
  rewrite FocusArea_calls, (memorySpans_calls replay h).
  assert (Hnot : ∀ active,
    FilterNotMemorySpans
      ∈ [UseActiveTabFromLocation; UseReplayContext; UseOrganization]
        ++ (if memo_hit replay h then []
            else match replay with Some _ => [FilterMemorySpans] | None => [] end)
        ++ (if ready replay (result (memorySpans replay h))
            then [ReadyCheck true; GetEvent; SwitchActive active]
                 ++ (if String.eqb active "console"
                     then [GetBreadcrumbsByCategory]
                     else if String.eqb active "network"
                          then [FilterNotMemorySpans]
                          else [])
            else [ReadyCheck false])
    ↔ active = "network" ∧
      ready replay (result (memorySpans replay h)) = true).
  { intros active. rewrite !elem_of_app. split.
    - intros [Hin|[Hin|Hin]].
      + no_such_call Hin.
      + destruct (memo_hit replay h), replay; no_such_call Hin.
      + destruct (ready _ _); [|no_such_call Hin].
        apply elem_of_app in Hin as [Hin|Hin]; [no_such_call Hin|].
        destruct (String.eqb_spec active "console"); [no_such_call Hin|].
        destruct (String.eqb_spec active "network"); [done|no_such_call Hin].
    - intros (-> & ->). right; right. simpl. repeat constructor. }
  split; [apply Hnot|]. split.
  - rewrite !elem_of_app. split.
    + intros [Hin|[Hin|Hin]].
      * no_such_call Hin.
      * destruct (memo_hit replay h); [no_such_call Hin|].
        destruct replay; [eauto|no_such_call Hin].
      * destruct (ready _ _); [|no_such_call Hin].
        apply elem_of_app in Hin as [Hin|Hin]; [no_such_call Hin|].
        destruct (String.eqb (activeTab env) "console"); [no_such_call Hin|].
        destruct (String.eqb (activeTab env) "network"); no_such_call Hin.
    + intros ([r ->] & ->). right; left. repeat constructor.
  - intros Hm. rewrite Hnot, Hm. intros ([=] & _).
Qed.

(** C7: every render first resolves the active tab and reads the other
    hooks, then obtains the memoised memory spans, then makes the
    readiness check.  When the check fails nothing follows and the
    placeholder is returned; when it succeeds the event is read and only
    then the [switch] on the active tab is entered, once. *)
Theorem render_order
    (env : Env) (replay : option ReplayReader) (h : Hooks) :
  ∃ memo rest,
    calls (FocusArea isBreadcrumbTypeDefault EntryType_SPANS env replay h)
    = [UseActiveTabFromLocation; UseReplayContext; UseOrganization]
      ++ memo
      ++ ReadyCheck (ready replay (result (memorySpans replay h))) :: rest
    ∧ (memo = [] ∨ memo = [FilterMemorySpans])
    ∧ (ready replay (result (memorySpans replay h)) = false →
         rest = [] ∧
         result (FocusArea isBreadcrumbTypeDefault EntryType_SPANS env replay h)
         = Some (Placeholder "150px"))
    ∧ (ready replay (result (memorySpans replay h)) = true →
         ∃ panel,
           rest = GetEvent :: SwitchActive (activeTab env) :: panel ∧
           ∀ c, c ∈ panel →
                c = GetBreadcrumbsByCategory ∨ c = FilterNotMemorySpans).
Proof.
  exists (calls (memorySpans replay h)).
  rewrite FocusArea_calls.
  assert (Hmemo : calls (memorySpans replay h) = []
                  ∨ calls (memorySpans replay h) = [FilterMemorySpans]).
  { rewrite memorySpans_calls.
    destruct (memo_hit replay h), replay; auto. }
  destruct (ready replay (result (memorySpans replay h))) eqn:Hready.
  - eexists. split; [reflexivity|]. split; [done|]. split; [done|].
    intros _. eexists. split; [reflexivity|].
    intros c Hc.
    destruct (String.eqb (activeTab env) "console");
      [|destruct (String.eqb (activeTab env) "network")].
    + apply list_elem_of_singleton in Hc. auto.
    + apply list_elem_of_singleton in Hc. auto.
    + by apply elem_of_nil in Hc.
  - exists []. split; [done|]. split; [done|]. split; [|done].
    intros _. split; [done|]. by apply FocusArea_not_ready.
Qed.

End Calls.

(** ** The widget library *)

Section Library.

Variable getTopNConvertedDefaultWidgets : list WidgetTemplate.
Variables WidgetType_RELEASE DisplayType_TOP_N DisplayType_TABLE : string.
Variable normalizeQueries : JsVal → JsVal → bool → JsVal → JsVal.
Variable getColorPalette : Z → list JsVal.

Lemma newWidget_widgetType newDesign (widget : WidgetTemplate) :
  prop (newWidget DisplayType_TOP_N DisplayType_TABLE normalizeQueries
          newDesign widget) "widgetType"
  = prop widget "widgetType".
Proof. unfold newWidget, prop. by rewrite !lookup_insert_ne. Qed.

Lemma eq_str_spec (v : JsVal) (s : string) : eq_str v s = true ↔ v = VStr s.
Proof.
  destruct v; simpl; try (split; [done|intros [=]]).
  rewrite String.eqb_eq. split; [by intros ->|by intros [= ->]].
Qed.

Lemma includes_str (strs : list string) (s : string) :
  includes strs (VStr s) = true ↔ s ∈ strs.
Proof.
  rewrite includes_spec. split.
  - by intros (s' & [= <-] & Hin).
  - eauto.
Qed.

Lemma WidgetLibrary_widgets bypass newDesign org :
  card_widget <$>
    WidgetLibrary getTopNConvertedDefaultWidgets WidgetType_RELEASE
      DisplayType_TOP_N DisplayType_TABLE normalizeQueries getColorPalette
      bypass newDesign org
  = newWidget DisplayType_TOP_N DisplayType_TABLE normalizeQueries newDesign
    <$> defaultWidgets getTopNConvertedDefaultWidgets WidgetType_RELEASE org.
Proof.
  unfold WidgetLibrary. cbv zeta. rewrite fmap_imap.
  apply (imap_const
           (newWidget DisplayType_TOP_N DisplayType_TABLE normalizeQueries
              newDesign)).
Qed.

(** C10: without the ['dashboards-releases'] feature the cards are those of
    the default widgets whose [widgetType] is not the release type, so no
    card shows a release widget; with the feature there is one card per
    default widget, in order.  Clicking a card calls [onWidgetSelect] with
    the card's widget directly exactly when [bypassOverwriteModal] is set;
    otherwise the click only opens the overwrite modal for that widget and
    icon colour, whose [onConfirm] callback is the call of
    [onWidgetSelect] with the widget. *)
Theorem widget_library_cards
    (bypassOverwriteModal widgetBuilderNewDesign : bool)
    (organization : Organization) :
  let cards :=
    WidgetLibrary getTopNConvertedDefaultWidgets WidgetType_RELEASE
      DisplayType_TOP_N DisplayType_TABLE normalizeQueries getColorPalette
      bypassOverwriteModal widgetBuilderNewDesign organization in
  ("dashboards-releases" ∉ features organization →
     card_widget <$> cards
     = newWidget DisplayType_TOP_N DisplayType_TABLE normalizeQueries
         widgetBuilderNewDesign
       <$> List.filter
             (λ w, negb (eq_str (prop w "widgetType") WidgetType_RELEASE))
             getTopNConvertedDefaultWidgets
     ∧ ∀ card, card ∈ cards →
         prop (card_widget card) "widgetType" ≠ VStr WidgetType_RELEASE)
  ∧ ("dashboards-releases" ∈ features organization →
     card_widget <$> cards
     = newWidget DisplayType_TOP_N DisplayType_TABLE normalizeQueries
         widgetBuilderNewDesign
       <$> getTopNConvertedDefaultWidgets)
  ∧ (∀ card, card ∈ cards →
       calls_onWidgetSelect (onClick card)
       = (if bypassOverwriteModal then [card_widget card] else [])
       ∧ onClick card
         = if bypassOverwriteModal
           then [onWidgetSelect (card_widget card)]
           else [openWidgetBuilderOverwriteModal
                   [onWidgetSelect (card_widget card)]
                   (card_widget card) (card_iconColor card)]).
Proof.
  intros cards.
  pose proof (WidgetLibrary_widgets bypassOverwriteModal
                widgetBuilderNewDesign organization) as Hwidgets.
  fold cards in Hwidgets.
  split; [|split].
  - intros Hfeature.
    assert (Hgate : includes (features organization)
                      (VStr "dashboards-releases") = false).
    { apply not_true_iff_false. by rewrite includes_str. }
    unfold defaultWidgets in Hwidgets. rewrite Hgate in Hwidgets.
    simpl in Hwidgets. split; [done|].
    intros card Hcard Hrelease.
    assert (Hin : card_widget card ∈ card_widget <$> cards)
      by (apply list_elem_of_fmap; eauto).
    rewrite Hwidgets in Hin.
    apply list_elem_of_fmap in Hin as (w & Hw & Hin).
    apply list_elem_of_In, filter_In in Hin as [_ Hkeep].
    rewrite Hw, newWidget_widgetType in Hrelease.
    apply eq_str_spec in Hrelease. by rewrite Hrelease in Hkeep.
  - intros Hfeature.
    assert (Hgate : includes (features organization)
                      (VStr "dashboards-releases") = true)
      by by apply includes_str.
    unfold defaultWidgets in Hwidgets. by rewrite Hgate in Hwidgets.
  - intros card Hcard. subst cards. unfold WidgetLibrary in Hcard.
    apply elem_of_lookup_imap in Hcard as (i & w & -> & _).
    unfold getLibrarySelectionHandler. simpl.
    by destruct bypassOverwriteModal.
Qed.

End Library.

(** * The specification's scenarios, evaluated *)

(** Scenario 1: the console panel gets the console breadcrumb alone. *)
Example scenario_console :
  result (Scenario.first_render "console" (Some Scenario.replay))
  = Some (Console [Scenario.console_crumb] (VNum 5)).
Proof. vm_compute. reflexivity. Qed.

(** Scenario 2: the memory panel gets the memory span alone. *)
Example scenario_memory :
  result (Scenario.first_render "memory" (Some Scenario.replay))
  = Some (MemoryChart (VNum 0) VUndefined
            (mkArr 0 [Scenario.memory_span]) 7 8 (VNum 5)).
Proof. vm_compute. reflexivity. Qed.

(** Scenario 3: no replay, trace tab: the placeholder. *)
Example scenario_loading :
  result (Scenario.first_render "trace" None) = Some (Placeholder "150px").
Proof. vm_compute. reflexivity. Qed.

(** Scenario 4: an unknown tab renders nothing. *)
Example scenario_unknown_tab :
  result (Scenario.first_render "unknown-tab" (Some Scenario.replay)) = None.
Proof. vm_compute. reflexivity. Qed.

(** The calls of a first render of the console tab, and of a render without
    a replay. *)
Example calls_console :
  calls (Scenario.first_render "console" (Some Scenario.replay))
  = [UseActiveTabFromLocation; UseReplayContext; UseOrganization;
     FilterMemorySpans; ReadyCheck true; GetEvent; SwitchActive "console";
     GetBreadcrumbsByCategory].
Proof. vm_compute. reflexivity. Qed.

Example calls_loading :
  calls (Scenario.first_render "trace" None)
  = [UseActiveTabFromLocation; UseReplayContext; UseOrganization;
     ReadyCheck false].
Proof. vm_compute. reflexivity. Qed.

(** Without the feature only the non-release widget gets a card; its click
    opens the modal. *)
Example library_without_feature :
  (λ c, (key c, onClick c)) <$> Scenario.library false (mkOrganization [])
  = [(VStr "Errors",
      [openWidgetBuilderOverwriteModal
         [onWidgetSelect
            (<["displayType" := VStr "table"]> Scenario.errors_widget)]
         (<["displayType" := VStr "table"]> Scenario.errors_widget)
         (VStr "#444674")])].
Proof. vm_compute. reflexivity. Qed.

Example library_with_feature :
  key <$> Scenario.library true (mkOrganization ["dashboards-releases"])
  = [VStr "Crash free"; VStr "Errors"].
Proof. vm_compute. reflexivity. Qed.

(** * Instances and counterexamples *)

Lemma null_for_unregistered_tab_witness :
  (activeTab (Scenario.env "unknown-tab")
     ∉ ["console"; "network"; "trace"; "issues"; "tags"; "memory"])
  ∧ result (FocusArea Scenario.is_default "spans" (Scenario.env "unknown-tab")
              (Some Scenario.replay)
              (hooks_after Scenario.is_default "spans"
                 [(Scenario.env "memory", Some Scenario.replay)]))
    = None.
Proof.
  assert (Hkey : activeTab (Scenario.env "unknown-tab")
                   ∉ ["console"; "network"; "trace"; "issues"; "tags"; "memory"]).
  { simpl. intros H. no_such_call H. }
  split; [exact Hkey|].
  exact (null_for_unregistered_tab Scenario.is_default "spans"
           [(Scenario.env "memory", Some Scenario.replay)]
           (Scenario.env "unknown-tab") Scenario.replay Hkey).
Defined.

Lemma console_panel_receives_console_breadcrumbs_witness :
  activeTab (Scenario.env "console") = "console"
  ∧ ∃ crumbs,
      result (FocusArea Scenario.is_default "spans" (Scenario.env "console")
                (Some Scenario.replay)
                (hooks_after Scenario.is_default "spans" []))
      = Some (Console crumbs (prop (getEvent Scenario.replay) "startTimestamp"))
      ∧ crumbs = getBreadcrumbsByCategory Scenario.is_default
                   (getRawCrumbs Scenario.replay) ["console"]
      ∧ (∀ b, b ∈ crumbs →
              b ∈ getRawCrumbs Scenario.replay
              ∧ prop b "category" = VStr "console")
      ∧ (∀ c n, getRawCrumbs Scenario.replay = [c; n] →
              prop c "category" = VStr "console" →
              prop n "category" = VStr "network" →
              crumbs = if Scenario.is_default c then [c] else []).
Proof.
  split; [reflexivity|].
  exact (console_panel_receives_console_breadcrumbs Scenario.is_default "spans"
           [] (Scenario.env "console") Scenario.replay eq_refl).
Defined.



Lemma network_panel_receives_fake_trace_witness :
  activeTab (Scenario.env "network") = "network"
  ∧ ∃ event entry spans,
      result (FocusArea Scenario.is_default "spans" (Scenario.env "network")
                (Some Scenario.replay)
                (hooks_after Scenario.is_default "spans" []))
      = Some (Spans (organization (Scenario.env "network")) event)
      ∧ member (member (prop event "contexts") "trace") "span_id"
        = VStr "replay_network_trace"
      ∧ prop event "entries" = VArr [VObj entry]
      ∧ prop entry "type" = VStr "spans"
      ∧ prop entry "data" = VArr (VObj <$> spans)
      ∧ Forall2
          (λ raw span,
             raw ∈ getRawSpans Scenario.replay
             ∧ isNotMemorySpan Scenario.replay raw = true
             ∧ prop span "parent_span_id" = VStr "replay_network_trace"
             ∧ prop span "timestamp" = prop raw "endTimestamp"
             ∧ prop span "start_timestamp" = prop raw "startTimestamp")
          (List.filter (isNotMemorySpan Scenario.replay)
             (getRawSpans Scenario.replay))
          spans.
Proof.
  split; [reflexivity|].
  exact (network_panel_receives_fake_trace Scenario.is_default "spans"
           [] (Scenario.env "network") Scenario.replay eq_refl).
Defined.

Lemma memorySpans_keyed_on_replay_identity_witness :
  (* the same replay twice, then another one *)
  let first := memorySpans (Some (Scenario.replay_at 1)) mount in
  let again := memorySpans (Some (Scenario.replay_at 1)) (hooks first) in
  let other := memorySpans (Some (Scenario.replay_at 2)) (hooks first) in
  (result again = result first ∧ calls again = [] ∧ hooks again = hooks first)
  ∧ (calls other = [FilterMemorySpans]
     ∧ ∃ a b, result first = Some a ∧ result other = Some b
              ∧ arr_ref b ≠ arr_ref a
              ∧ arr_items b
                = List.filter (isMemorySpan (Scenario.replay_at 2))
                    (getRawSpans (Scenario.replay_at 2))).
Proof.
  split.
  - exact (proj1 (memorySpans_keyed_on_replay_identity Scenario.is_default
                    "spans" [] (Scenario.replay_at 1) (Scenario.replay_at 1))
             eq_refl).
  - apply (proj2 (memorySpans_keyed_on_replay_identity Scenario.is_default
                    "spans" [] (Scenario.replay_at 1) (Scenario.replay_at 2))).
    simpl. lia.
Defined.

(** The memory spans are computed in a first render of the console tab,
    whose panel does not use them. *)
Lemma memory_spans_computed_for_console_tab :
  ¬ only_required_inputs_computed Scenario.is_default "spans"
      (Scenario.env "console") (Some Scenario.replay) mount.
Proof.
  intros [_ Hlazy]. apply Hlazy; [discriminate|].
  change (FocusArea Scenario.is_default "spans" (Scenario.env "console")
            (Some Scenario.replay) mount)
    with (Scenario.first_render "console" (Some Scenario.replay)).
  rewrite calls_console. repeat constructor.
Qed.

Lemma derived_inputs_computed_witness :
  let log := calls (Scenario.first_render "memory" (Some Scenario.replay)) in
  (FilterNotMemorySpans ∉ log) ∧ (FilterMemorySpans ∈ log).
Proof.
  pose proof (derived_inputs_computed Scenario.is_default "spans"
                (Scenario.env "memory") (Some Scenario.replay) mount)
    as (_ & Hmem & Hnot).
  split.
  - exact (Hnot eq_refl).
  - apply Hmem. split; [by eexists|reflexivity].
Defined.

(** The active tab is resolved in a render without a replay, where the
    readiness check never succeeds. *)
Lemma active_tab_resolved_before_readiness :
  ¬ resolution_waits_for_readiness Scenario.is_default "spans"
      (Scenario.env "trace") None mount.
Proof.
  intros Hwait.
  destruct (Hwait 0 UseActiveTabFromLocation) as (j & Hj & _);
    [reflexivity|by left|lia].
Qed.

Lemma widget_library_cards_witness :
  let cards := Scenario.library false (mkOrganization []) in
  ("dashboards-releases" ∉ features (mkOrganization []))
  ∧ (∀ card, card ∈ cards →
       prop (card_widget card) "widgetType" ≠ VStr "metrics")
  ∧ (∀ card, card ∈ cards → calls_onWidgetSelect (onClick card) = []).
Proof.
  assert (Hfeature : "dashboards-releases" ∉ features (mkOrganization [])).
  { simpl. apply not_elem_of_nil. }
  pose proof (widget_library_cards
                [Scenario.release_widget; Scenario.errors_widget]
                "metrics" "top_n" "table" Scenario.normalize Scenario.palette
                false true (mkOrganization []))
    as (Hwithout & _ & Hclick).
  split; [exact Hfeature|]. split.
  - exact (proj2 (Hwithout Hfeature)).
  - intros card Hcard. exact (proj1 (Hclick card Hcard)).
Defined.

(** * Further properties *)

(** ** The post-merge hook *)

Module PostMergeFacts.
Import PostMerge.

Lemma starts_with_spec text line :
  starts_with text line = true ↔ ∃ after, line = text +:+ after.
Proof.
  revert line. induction text as [|a text IH]; intros line; simpl.
  - split; [by exists line|done].
  - destruct line as [|b line].
    + split; [done|]. by intros [after [=]].
    + rewrite andb_true_iff, IH, Ascii.eqb_eq. split.
      * intros [-> [after ->]]. by exists after.
      * intros [after [= -> ->]]. eauto.
Qed.

Lemma contains_spec text line : contains text line = true ↔ occurs text line.
Proof.
  unfold occurs. induction line as [|b line IH]; simpl.
  - rewrite orb_false_r, starts_with_spec. split.
    + intros [after H]. by exists "", after.
    + intros ([|c before] & after & H); [by exists after|done].
  - rewrite orb_true_iff, starts_with_spec, IH. split.
    + intros [[after H]|(before & after & ->)].
      * by exists "", after.
      * by exists (String b before), after.
    + intros ([|c before] & after & H).
      * left. by exists after.
      * right. injection H as -> ->. by exists before, after.
Qed.

Lemma grep_quiet_spec alternatives file :
  grep_quiet alternatives file = true ↔ changed alternatives file.
Proof.
  unfold grep_quiet, changed. rewrite existsb_exists. split.
  - intros (line & Hline & Halt). apply existsb_exists in Halt
      as (text & Htext & Hc).
    exists line, text. rewrite !list_elem_of_In. by rewrite <- contains_spec.
  - intros (line & text & Hline & Htext & Hocc).
    exists line. rewrite <- list_elem_of_In. split; [done|].
    apply existsb_exists. exists text. rewrite <- list_elem_of_In.
    by rewrite contains_spec.
Qed.

Lemma nonempty_spec x : nonempty x = true ↔ x ≠ "".
Proof.
  unfold nonempty. rewrite negb_true_iff.
  destruct (String.eqb_spec x ""); split; congruence.
Qed.

(** X1: in a clean environment the command is [make] followed by the
    targets for Python, JavaScript and migrations, in this order, each
    present exactly when some changed path has the matching text in it:
    [requirements-base.txt] or [requirements-dev.txt], [yarn.lock],
    [migrations]. *)
Theorem update_command_targets (e : Environment) (files : list string) :
  clean e →
  ∃ python javascript database : bool,
    update_command e files
    = "make " +:+ (if python then "install-py-dev " else "")
      +:+ (if javascript then "install-js-dev " else "")
      +:+ (if database then "apply-migrations " else "")
    ∧ (python = true ↔ changed requirements files)
    ∧ (javascript = true ↔ changed yarn_lock files)
    ∧ (database = true ↔ changed migrations files).
Proof.
  intros (Hpc & Hpy & Hjs & Hmig & _).
  exists (grep_quiet requirements files), (grep_quiet yarn_lock files),
         (grep_quiet migrations files).
  split; [|by rewrite !grep_quiet_spec].
  unfold update_command, py, js, migrations_target.
  rewrite Hpc, Hpy, Hjs, Hmig.
  by destruct (grep_quiet requirements files), (grep_quiet yarn_lock files),
    (grep_quiet migrations files).
Qed.

(** X2: in a clean environment the hook is silent, printing and running
    nothing, exactly when no changed path has any of the four texts in
    it. *)
Theorem post_merge_silent_iff (e : Environment) (files : list string) :
  clean e →
  (post_merge e files = []
   ↔ ¬ changed (requirements ++ yarn_lock ++ migrations) files).
Proof.
  intros (Hpc & Hpy & Hjs & Hmig & Hneeds).
  assert (Hchanged : changed (requirements ++ yarn_lock ++ migrations) files
    ↔ changed requirements files ∨ changed yarn_lock files
      ∨ changed migrations files).
  { unfold changed. split.
    - intros (line & text & Hl & Ht & Ho).
      rewrite !elem_of_app in Ht. destruct Ht as [Ht|[Ht|Ht]]; eauto 10.
    - intros [H|[H|H]]; destruct H as (line & text & Hl & Ht & Ho);
        exists line, text; rewrite !elem_of_app; eauto 10. }
  rewrite Hchanged, <- !grep_quiet_spec.
  unfold post_merge, needs_update, py, js, migrations_target.
  rewrite Hpc, Hpy, Hjs, Hmig, Hneeds.
  destruct (grep_quiet requirements files), (grep_quiet yarn_lock files),
    (grep_quiet migrations files),
    (nonempty (SENTRY_POST_MERGE_AUTO_UPDATE e)); simpl;
    (split; [intros H; try discriminate H; intros [?|[?|?]]; done
            |intros H; try reflexivity; exfalso; apply H; auto]).
Qed.

(** X3: the command is run only when [SENTRY_POST_MERGE_AUTO_UPDATE] is set
    and an update is needed, and then the notice with that very command
    has been printed before it; without the variable nothing is ever
    run. *)
Theorem post_merge_runs (e : Environment) (files : list string) :
  (∀ command, Run command ∈ post_merge e files ↔
      command = update_command e files
      ∧ SENTRY_POST_MERGE_AUTO_UPDATE e ≠ ""
      ∧ needs_update e files ≠ "")
  ∧ (∀ command, Run command ∈ post_merge e files →
      post_merge e files = [Print (message e command); Run command]).
Proof.
  assert (Hrun : ∀ command, Run command ∈ post_merge e files ↔
      command = update_command e files
      ∧ SENTRY_POST_MERGE_AUTO_UPDATE e ≠ ""
      ∧ needs_update e files ≠ "").
  { intros command. rewrite <- !nonempty_spec. unfold post_merge.
    destruct (nonempty (needs_update e files)),
      (nonempty (SENTRY_POST_MERGE_AUTO_UPDATE e)); simpl.
    - split.
      + intros H. apply elem_of_cons in H as [H|H]; [discriminate H|].
        apply list_elem_of_singleton in H. by injection H as ->.
      + intros (-> & _). right. left.
    - split; [|by intros (_ & ? & _)].
      intros H. apply list_elem_of_singleton in H. discriminate H.
    - split; [|by intros (_ & _ & ?)].
      intros H. by apply elem_of_nil in H.
    - split; [|by intros (_ & _ & ?)].
      intros H. by apply elem_of_nil in H. }
  split; [exact Hrun|].
  intros command Hin. apply Hrun in Hin as (-> & Hauto & Hneeds).
  apply nonempty_spec in Hauto, Hneeds. unfold post_merge.
  by rewrite Hauto, Hneeds.
Qed.


Lemma post_merge_nil e files :
  post_merge e files = [] ↔ nonempty (needs_update e files) = false.
Proof.
  unfold post_merge.
  destruct (nonempty (needs_update e files)); simpl; [done|].
  by rewrite andb_false_r.
Qed.

Lemma grep_quiet_mono alternatives (files files' : list string) :
  files ⊆ files' →
  grep_quiet alternatives files = true → grep_quiet alternatives files' = true.
Proof.
  intros Hsub. rewrite !grep_quiet_spec.
  intros (line & text & Hl & Ht & Ho). exists line, text. auto.
Qed.

(** X5: more changed paths never silence the hook: when it gives the
    notice for some changed paths it gives it for any list that has at
    least these paths, in any environment. *)
Theorem post_merge_monotone (e : Environment) (files files' : list string) :
  files ⊆ files' →
  post_merge e files ≠ [] → post_merge e files' ≠ [].
Proof.
  intros Hsub. rewrite !post_merge_nil, !not_false_iff_true.
  assert (Htarget : ∀ alternatives target inherited,
    nonempty (if grep_quiet alternatives files then target else inherited) = true →
    nonempty target = true →
    nonempty (if grep_quiet alternatives files' then target else inherited) = true).
  { intros alternatives target inherited Hfiles Htarget.
    destruct (grep_quiet alternatives files') eqn:Hg'; [done|].
    destruct (grep_quiet alternatives files) eqn:Hg; [|done].
    apply (grep_quiet_mono _ _ _ Hsub) in Hg. congruence. }
  unfold needs_update, py, js, migrations_target.
  destruct (nonempty (env_pc e)); simpl; [done|].
  destruct (nonempty (if grep_quiet requirements files then _ else _)) eqn:Hpy.
  { intros _. by rewrite (Htarget _ _ _ Hpy eq_refl). }
  destruct (nonempty (if grep_quiet yarn_lock files then _ else _)) eqn:Hjs.
  { intros _. rewrite (Htarget _ _ _ Hjs eq_refl). by rewrite orb_true_r. }
  destruct (nonempty (if grep_quiet migrations files then _ else _)) eqn:Hmig.
  { intros _. rewrite (Htarget _ _ _ Hmig eq_refl). by rewrite !orb_true_r. }
  simpl. intros Hinherited.
  by destruct (_ || _).
Qed.

End PostMergeFacts.

(** ** Renders of the focus area *)


Section Renders.

Variable isBreadcrumbTypeDefault : RawCrumb → bool.
Variable EntryType_SPANS : string.

(** What the [switch] returns, case by case. *)
Lemma switch_cases_result ctx org r ev a x h :
  result (switch x
            (cases isBreadcrumbTypeDefault EntryType_SPANS ctx org r ev a)
            (mret None) h)
  = if String.eqb x "console"
    then Some (Console
                 (getBreadcrumbsByCategory isBreadcrumbTypeDefault
                    (getRawCrumbs r) ["console"])
                 (prop ev "startTimestamp"))
    else if String.eqb x "network"
    then Some (Spans org (performanceEvent EntryType_SPANS r ev))
    else if String.eqb x "trace" then Some (Trace org ev)
    else if String.eqb x "issues"
    then Some (IssueList (prop ev "id") (prop ev "projectID"))
    else if String.eqb x "tags" then Some (TagsTable (λ _, "") ev "")
    else if String.eqb x "memory"
    then Some (MemoryChart (currentTime ctx) (currentHoverTime ctx) a
                 (setCurrentTime ctx) (setCurrentHoverTime ctx)
                 (prop ev "startTimestamp"))
    else None.
Proof.
  unfold cases. cbn [switch].
  repeat (destruct (String.eqb x _); [reflexivity|]). reflexivity.
Qed.

(** The element a render returns depends on the hook state only through
    the memoised memory spans. *)
Lemma FocusArea_result env replay h :
  result (FocusArea isBreadcrumbTypeDefault EntryType_SPANS env replay h)
  = match replay, result (memorySpans replay h) with
    | Some r, Some a =>
        result (switch (activeTab env)
                  (cases isBreadcrumbTypeDefault EntryType_SPANS
                     (replayContext env) (organization env) r (getEvent r) a)
                  (mret None) mount)
    | _, _ => Some (Placeholder "150px")
    end.
Proof.
  rewrite FocusArea_run.
  destruct replay as [r|];
    [destruct (memorySpans (Some r) h) as [[ms h1] l]
    |destruct (memorySpans None h) as [[ms h1] l]];
    change (result (ms, h1, l)) with ms; [|reflexivity].
  destruct ms as [a|]; [|reflexivity].
  rewrite (switch_cases_result _ _ _ _ _ _ mount),
    <- (switch_cases_result _ _ _ _ _ _ h1).
  match goal with
  | |- context [switch ?x ?c ?d h1] =>
      destruct (switch x c d h1) as [[out h2] pl]
  end.
  reflexivity.
Qed.


(** X7: the memo cell holds one value.  When the replay goes away and comes
    back, the render in between stores [undefined], and the render after it
    runs the filter again and hands out a new array, whose reference is not
    the one handed out before the gap. *)
Theorem memorySpans_dropped_while_loading
    (rs : list (Env * option ReplayReader)) (A : ReplayReader) :
  let before :=
    memorySpans (Some A) (hooks_after isBreadcrumbTypeDefault EntryType_SPANS rs) in
  let gap := memorySpans None (hooks before) in
  let back := memorySpans (Some A) (hooks gap) in
  result gap = None
  ∧ calls back = [FilterMemorySpans]
  ∧ ∃ a b, result before = Some a ∧ result back = Some b
           ∧ arr_ref b ≠ arr_ref a
           ∧ arr_items b = List.filter (isMemorySpan A) (getRawSpans A).
Proof.
  intros before gap back.
  pose proof (hooks_after_inv isBreadcrumbTypeDefault EntryType_SPANS rs) as Hinv.
  assert (Hbefore : ∃ a,
    result before = Some a ∧
    memo_cell (hooks before) = Some ([Some (replay_ref A)], Some a) ∧
    arr_ref a < next_ref (hooks before)).
  { subst before. rewrite memorySpans_run. cbv zeta.
    unfold cell_inv in Hinv.
    destruct (memo_cell _) as [[prevDeps prevValue]|] eqn:Hcell;
      [|eexists; repeat split; simpl; lia].
    destruct (areHookInputsEqual _ prevDeps) eqn:Heq;
      [|eexists; repeat split; simpl; lia].
    destruct prevValue as [a|].
    - destruct Hinv as (Hlt & r' & _ & -> & _).
      apply areHookInputsEqual_single in Heq. simpl in Heq.
      injection Heq as Href. exists a.
      unfold result, hooks; simpl. rewrite Hcell, Href. done.
    - subst prevDeps. by apply areHookInputsEqual_single in Heq. }
  destruct Hbefore as (a & Hres & Hcell & Hlt).
  assert (Hgap : gap = (None, mkHooks (Some ([None], None))
                                (next_ref (hooks before)), [])).
  { subst gap. rewrite memorySpans_run. cbv zeta. rewrite Hcell.
    reflexivity. }
  subst back. rewrite Hgap. split; [done|].
  rewrite memorySpans_run. cbv zeta. unfold hooks at 1 2 3; cbn [fst snd].
  cbn [memo_cell next_ref].
  replace (areHookInputsEqual [identity (Some A)] [None]) with false
    by reflexivity.
  split; [done|]. exists a. eexists. split; [done|]. split; [done|].
  simpl. split; [lia|done].
Qed.

(** X8: in a state the component reaches, the placeholder is returned
    exactly when the replay is [null]. *)
Theorem placeholder_iff_replay_unavailable
    (rs : list (Env * option ReplayReader)) (env : Env)
    (replay : option ReplayReader) :
  (∃ height,
     result (FocusArea isBreadcrumbTypeDefault EntryType_SPANS env replay
               (hooks_after isBreadcrumbTypeDefault EntryType_SPANS rs))
     = Some (Placeholder height))
  ↔ replay = None.
Proof.
  rewrite FocusArea_result. split.
  - destruct replay as [r|]; [|done]. intros [height Hout].
    destruct (memorySpans_available _ r _
                (hooks_after_inv isBreadcrumbTypeDefault EntryType_SPANS rs))
      as [a Ha].
    rewrite Ha, switch_cases_result in Hout.
    repeat (destruct (String.eqb (activeTab env) _); [discriminate Hout|]).
    discriminate Hout.
  - intros ->. by exists "150px".
Qed.

(** X9: with the replay available, the trace panel is given the
    organization and the replay's event, the issue list the event's [id]
    and [projectID], and the tags table the event, an empty query and a
    URL generator that returns the empty string for every tag. *)
Theorem event_panels
    (rs : list (Env * option ReplayReader)) (env : Env) (r : ReplayReader) :
  let out :=
    result (FocusArea isBreadcrumbTypeDefault EntryType_SPANS env (Some r)
              (hooks_after isBreadcrumbTypeDefault EntryType_SPANS rs)) in
  (activeTab env = "trace" →
     out = Some (Trace (organization env) (getEvent r)))
  ∧ (activeTab env = "issues" →
     out = Some (IssueList (prop (getEvent r) "id")
                   (prop (getEvent r) "projectID")))
  ∧ (activeTab env = "tags" →
     ∃ generateUrl,
       out = Some (TagsTable generateUrl (getEvent r) "")
       ∧ ∀ tag, generateUrl tag = "").
Proof.
  intros out. subst out. rewrite FocusArea_result.
  destruct (memorySpans_available _ r _
              (hooks_after_inv isBreadcrumbTypeDefault EntryType_SPANS rs))
    as [a ->].
  rewrite switch_cases_result.
  split; [|split]; intros ->; [done|done|]. by eexists.
Qed.

End Renders.

(** ** The fake trace *)

#[local] Set Warnings "-clear-no-such-hyp".

(** X10: the event given to the spans view is the replay's event with two
    properties replaced: every other property is the event's, while
    [contexts] holds the fake trace context and nothing else, whatever
    contexts the event had, and [entries] holds the spans entry alone. *)
Theorem performanceEvent_properties
    (EntryType_SPANS : string) (r : ReplayReader) (event : Event) :
  let fake := performanceEvent EntryType_SPANS r event in
  (∀ k, k ≠ "contexts" → k ≠ "entries" → fake !! k = event !! k)
  ∧ prop fake "contexts" = VObj {["trace" := VObj traceContext]}
  ∧ (∀ k, k ≠ "trace" → member (prop fake "contexts") k = VUndefined)
  ∧ prop fake "entries" = VArr [VObj (nonMemorySpansEntry EntryType_SPANS r)]
  ∧ dom fake = {["contexts"; "entries"]} ∪ dom event.
Proof.
  intros fake. subst fake. unfold performanceEvent, prop.
  assert (Hctx : (<["trace" := VObj traceContext]> ∅ : gmap string JsVal)
                 = {["trace" := VObj traceContext]}) by done.
  rewrite Hctx. repeat split.
  - intros k Hc He. rewrite !lookup_insert_ne; done.
  - rewrite lookup_insert_ne, lookup_insert_eq; done.
  - intros k Hk. rewrite lookup_insert_ne, lookup_insert_eq by done.
    simpl. unfold prop. by rewrite lookup_singleton_ne.
  - by rewrite lookup_insert_eq.
  - rewrite !dom_insert_L. set_solver.
Qed.

(** X11: a span of the fake trace has the properties of the raw span other
    than [startTimestamp] and [endTimestamp], which it no longer has, and
    the three properties [timestamp], [start_timestamp] and
    [parent_span_id], which replace any the raw span had under these
    names. *)
Theorem networkSpan_shape (raw : ReplaySpan) :
  dom (networkSpan raw)
  = {["parent_span_id"; "start_timestamp"; "timestamp"]}
    ∪ (dom raw ∖ {["startTimestamp"; "endTimestamp"]})
  ∧ networkSpan raw !! "startTimestamp" = None
  ∧ networkSpan raw !! "endTimestamp" = None
  ∧ (∀ k, k ∉ ["parent_span_id"; "start_timestamp"; "timestamp";
               "endTimestamp"; "startTimestamp"] →
          networkSpan raw !! k = raw !! k).
Proof.
  unfold networkSpan. repeat split.
  - rewrite !dom_insert_L, !dom_delete_L. set_solver.
  - rewrite !lookup_insert_ne by done.
    rewrite lookup_delete_ne by done. apply lookup_delete_eq.
  - rewrite !lookup_insert_ne by done. apply lookup_delete_eq.
  - intros k Hk. rewrite !not_elem_of_cons in Hk.
    destruct Hk as (? & ? & ? & ? & ? & _).
    rewrite !lookup_insert_ne, !lookup_delete_ne; done.
Qed.

(** ** More on the breadcrumb filter *)

Section BreadcrumbFilter.

Variable isBreadcrumbTypeDefault : RawCrumb → bool.

Lemma getBreadcrumbsByCategory_filter breadcrumbs categories :
  getBreadcrumbsByCategory isBreadcrumbTypeDefault breadcrumbs categories
  = List.filter
      (λ b, isBreadcrumbTypeDefault b
            && includes categories (orElse (prop b "category") (VStr "")))
      breadcrumbs.
Proof.
  unfold getBreadcrumbsByCategory.
  induction breadcrumbs as [|b bs IH]; [done|]. simpl.
  destruct (isBreadcrumbTypeDefault b); simpl; [|done].
  destruct (includes _ _); by rewrite IH.
Qed.

Lemma filter_sublist {A : Type} (f : A → bool) (l : list A) :
  sublist (List.filter f l) l.
Proof.
  induction l as [|x l IH]; simpl; [constructor|].
  destruct (f x); by constructor.
Qed.

Lemma filter_filter_same {A : Type} (f : A → bool) (l : list A) :
  List.filter f (List.filter f l) = List.filter f l.
Proof.
  induction l as [|x l IH]; simpl; [done|].
  destruct (f x) eqn:Hx; simpl; [|done]. by rewrite Hx, IH.
Qed.

(** X12: the filter returns a sublist of the breadcrumbs: it keeps their
    order and adds or repeats none.  It works element by element, so the
    result for two lists one after the other is the two results one after
    the other; and it returns nothing when no category is requested. *)
Theorem getBreadcrumbsByCategory_sublist
    (breadcrumbs more : list RawCrumb) (categories : list string) :
  sublist (getBreadcrumbsByCategory isBreadcrumbTypeDefault breadcrumbs categories)
    breadcrumbs
  ∧ getBreadcrumbsByCategory isBreadcrumbTypeDefault (breadcrumbs ++ more) categories
    = getBreadcrumbsByCategory isBreadcrumbTypeDefault breadcrumbs categories
      ++ getBreadcrumbsByCategory isBreadcrumbTypeDefault more categories
  ∧ getBreadcrumbsByCategory isBreadcrumbTypeDefault breadcrumbs [] = [].
Proof.
  rewrite !getBreadcrumbsByCategory_filter. split; [|split].
  - apply filter_sublist.
  - apply List.filter_app.
  - induction breadcrumbs as [|b bs IH]; [done|]. simpl.
    by rewrite andb_false_r.
Qed.

(** X13: filtering a result again with the same categories changes
    nothing. *)
Theorem getBreadcrumbsByCategory_idempotent
    (breadcrumbs : list RawCrumb) (categories : list string) :
  getBreadcrumbsByCategory isBreadcrumbTypeDefault
    (getBreadcrumbsByCategory isBreadcrumbTypeDefault breadcrumbs categories)
    categories
  = getBreadcrumbsByCategory isBreadcrumbTypeDefault breadcrumbs categories.
Proof.
  rewrite !getBreadcrumbsByCategory_filter. apply filter_filter_same.
Qed.

(** X14: how the category is read.  A falsy category ([undefined], [null],
    the empty string, [0], [false]) counts as the empty string; a non-empty
    string counts as itself; any other value (a non-zero number, [true], an
    array, an object) matches no requested category, so such a breadcrumb
    is never returned. *)
Theorem getBreadcrumbsByCategory_category
    (breadcrumbs : list RawCrumb) (categories : list string) (b : RawCrumb) :
  let returned :=
    b ∈ getBreadcrumbsByCategory isBreadcrumbTypeDefault breadcrumbs categories in
  (truthy (prop b "category") = false →
     (returned ↔ b ∈ breadcrumbs ∧ isBreadcrumbTypeDefault b = true
                 ∧ "" ∈ categories))
  ∧ (∀ s, prop b "category" = VStr s → s ≠ "" →
     (returned ↔ b ∈ breadcrumbs ∧ isBreadcrumbTypeDefault b = true
                 ∧ s ∈ categories))
  ∧ (truthy (prop b "category") = true →
     (∀ s, prop b "category" ≠ VStr s) → ¬ returned).
Proof.
  intros returned. subst returned.
  split; [|split].
  - rewrite elem_of_getBreadcrumbsByCategory. unfold orElse.
    intros ->. split.
    + intros (? & ? & c & [= <-] & ?). done.
    + intros (? & ? & ?). eauto.
  - intros s Hs Hne.
    rewrite elem_of_getBreadcrumbsByCategory. unfold orElse.
    rewrite Hs. simpl.
    destruct (String.eqb_spec s ""); [done|]. simpl. split.
    + intros (? & ? & c & [= <-] & ?). done.
    + intros (? & ? & ?). eauto.
  - rewrite elem_of_getBreadcrumbsByCategory. unfold orElse.
    intros -> Hnot (_ & _ & c & Hc & _). by apply (Hnot c).
Qed.

End BreadcrumbFilter.

(** ** More on the widget library *)

Section LibraryCards.

Variable getTopNConvertedDefaultWidgets : list WidgetTemplate.
Variables WidgetType_RELEASE DisplayType_TOP_N DisplayType_TABLE : string.
Variable normalizeQueries : JsVal → JsVal → bool → JsVal → JsVal.
Variable getColorPalette : Z → list JsVal.

(** X15: the widget a card shows is the default widget with two properties
    replaced.  Its display type becomes the table type exactly when the new
    design is on and the widget is a top-N one, and is the widget's own
    otherwise; its queries are the normalised ones, computed for that
    display type; every other property is untouched. *)
Theorem newWidget_properties
    (widgetBuilderNewDesign : bool) (widget : WidgetTemplate) :
  let shown :=
    newWidget DisplayType_TOP_N DisplayType_TABLE normalizeQueries
      widgetBuilderNewDesign widget in
  (∀ k, k ≠ "displayType" → k ≠ "queries" → shown !! k = widget !! k)
  ∧ prop shown "displayType"
    = (if widgetBuilderNewDesign
          && eq_str (prop widget "displayType") DisplayType_TOP_N
       then VStr DisplayType_TABLE else prop widget "displayType")
  ∧ (widgetBuilderNewDesign = false →
     prop shown "displayType" = prop widget "displayType")
  ∧ (prop widget "displayType" ≠ VStr DisplayType_TOP_N →
     prop shown "displayType" = prop widget "displayType")
  ∧ prop shown "queries"
    = normalizeQueries (prop shown "displayType") (prop widget "queries")
        widgetBuilderNewDesign (prop widget "widgetType").
Proof.
  intros shown.
  assert (Hdisplay : prop shown "displayType"
    = (if widgetBuilderNewDesign
          && eq_str (prop widget "displayType") DisplayType_TOP_N
       then VStr DisplayType_TABLE else prop widget "displayType")).
  { subst shown. unfold newWidget, prop at 1.
    rewrite lookup_insert_ne, lookup_insert_eq; done. }
  split; [|split; [|split; [|split]]].
  - intros k Hd Hq. subst shown. unfold newWidget.
    rewrite !lookup_insert_ne; done.
  - exact Hdisplay.
  - intros ->. by rewrite Hdisplay.
  - intros Hne. rewrite Hdisplay.
    destruct (eq_str (prop widget "displayType") DisplayType_TOP_N) eqn:Heq.
    + by apply eq_str_spec in Heq.
    + by rewrite andb_false_r.
  - rewrite Hdisplay. subst shown. unfold newWidget, prop at 1.
    by rewrite lookup_insert_eq.
Qed.

(** X16: there is one card per widget that passes the feature gate, in
    order.  The card at position [i] has the title of its widget as key and
    the colour at position [i] of the palette requested for the number of
    cards minus two, or [undefined] when the palette is shorter; its click
    handler is the one for the shown widget and that colour. *)
Theorem WidgetLibrary_card
    (bypassOverwriteModal widgetBuilderNewDesign : bool)
    (organization : Organization) (i : nat) :
  let widgets :=
    defaultWidgets getTopNConvertedDefaultWidgets WidgetType_RELEASE organization in
  let cards :=
    WidgetLibrary getTopNConvertedDefaultWidgets WidgetType_RELEASE
      DisplayType_TOP_N DisplayType_TABLE normalizeQueries getColorPalette
      bypassOverwriteModal widgetBuilderNewDesign organization in
  let palette := getColorPalette (Z.of_nat (List.length cards) - 2) in
  List.length cards = List.length widgets
  ∧ (List.length cards ≤ List.length getTopNConvertedDefaultWidgets)%nat
  ∧ (∀ widget, widgets !! i = Some widget →
       ∃ card, cards !! i = Some card
         ∧ key card = prop widget "title"
         ∧ card_widget card
           = newWidget DisplayType_TOP_N DisplayType_TABLE normalizeQueries
               widgetBuilderNewDesign widget
         ∧ card_iconColor card = default VUndefined (palette !! i)
         ∧ onClick card
           = getLibrarySelectionHandler bypassOverwriteModal
               (card_widget card) (card_iconColor card)).
Proof.
  intros widgets cards palette.
  assert (Hlen : List.length cards = List.length widgets).
  { subst cards. unfold WidgetLibrary. cbv zeta. by rewrite length_imap. }
  split; [done|]. split.
  - rewrite Hlen. subst widgets. unfold defaultWidgets.
    destruct (negb _); [|done]. apply List.filter_length_le.
  - intros widget Hw. subst palette. rewrite Hlen.
    subst cards. unfold WidgetLibrary. cbv zeta.
    rewrite list_lookup_imap. fold widgets. rewrite Hw. simpl.
    eexists. split; [reflexivity|]. done.
Qed.

End LibraryCards.

(** ** Lazily loaded route components *)

(** X17: the element made by [makeLazyloadComponent] gets as props what
    the caller passes, but for the names React reserves ([key], [ref],
    [__self], [__source]), which never are props.  Its [component] prop is
    the resolver only when the caller passes no [component] prop of its
    own, which otherwise takes its place. *)
Theorem makeLazyloadComponent_props {V : Type}
    (resolve : V) (componentProps : gmap string V) :
  (∀ k, k ≠ "component" → k ∉ RESERVED_PROPS →
     makeLazyloadComponent resolve componentProps !! k = componentProps !! k)
  ∧ makeLazyloadComponent resolve componentProps !! "component"
    = Some (default resolve (componentProps !! "component"))
  ∧ (∀ k, k ∈ RESERVED_PROPS →
     makeLazyloadComponent resolve componentProps !! k = None)
  ∧ dom (makeLazyloadComponent resolve componentProps)
    = ({["component"]} ∪ dom componentProps) ∖ list_to_set RESERVED_PROPS.
Proof.
  assert (Hkept : ∀ k, k ∉ RESERVED_PROPS →
    makeLazyloadComponent resolve componentProps !! k
    = (componentProps ∪ {["component" := resolve]}) !! k).
  { intros k Hk. unfold makeLazyloadComponent, element_props.
    rewrite map_lookup_filter.
    destruct ((componentProps ∪ {["component" := resolve]}) !! k) as [v|];
      [|done].
    simpl. by rewrite option_guard_True. }
  assert (Hdropped : ∀ k, k ∈ RESERVED_PROPS →
    makeLazyloadComponent resolve componentProps !! k = None).
  { intros k Hk. unfold makeLazyloadComponent, element_props.
    apply map_lookup_filter_None. right. intros v _ Hnot. by apply Hnot. }
  split; [|split; [|split]].
  - intros k Hk Hres. rewrite (Hkept k Hres), lookup_union.
    rewrite lookup_singleton_ne by done.
    by destruct (componentProps !! k).
  - rewrite Hkept.
    + rewrite lookup_union, lookup_singleton_eq.
      by destruct (componentProps !! "component").
    + unfold RESERVED_PROPS. rewrite !not_elem_of_cons.
      repeat split; try discriminate. apply not_elem_of_nil.
  - exact Hdropped.
  - apply set_eq. intros k.
    rewrite elem_of_difference, elem_of_list_to_set, elem_of_dom.
    destruct (decide (k ∈ RESERVED_PROPS)) as [Hres|Hres].
    + rewrite (Hdropped k Hres). split; [by intros [? ?]|by intros [_ ?]].
    + rewrite (Hkept k Hres), <- elem_of_dom, dom_union_L, dom_singleton_L.
      split; [intros Hin; split; [set_solver|done]|intros [Hin _]; set_solver].
Qed.

(** The reserved names on a sample: a caller's [key] and [ref] are not
    props, its [component] replaces the resolver. *)
Example makeLazyloadComponent_sample :
  makeLazyloadComponent "resolve"
    (list_to_map [("key", "k1"); ("ref", "r1"); ("orgId", "acme");
                  ("component", "mine")])
  = list_to_map [("orgId", "acme"); ("component", "mine")].
Proof. vm_compute. reflexivity. Qed.

(** ** The memory panel after a replay was changed in place *)


(** ** The hook on sample inputs *)

Example post_merge_sample_auto :
  PostMerge.post_merge (PostMerge.sample_environment "1") PostMerge.sample_files
  = [PostMerge.Print
       (PostMerge.message (PostMerge.sample_environment "1")
          "make install-py-dev apply-migrations ");
     PostMerge.Run "make install-py-dev apply-migrations "].
Proof. vm_compute. reflexivity. Qed.

Example post_merge_sample_notice_only :
  PostMerge.post_merge (PostMerge.sample_environment "") ["yarn.lock"]
  = [PostMerge.Print
       (PostMerge.message (PostMerge.sample_environment "")
          "make install-js-dev ")].
Proof. vm_compute. reflexivity. Qed.

Example post_merge_sample_other_requirements :
  PostMerge.post_merge (PostMerge.sample_environment "1")
    ["requirements-test.txt"; "yarn-lock"]
  = [].
Proof. vm_compute. reflexivity. Qed.

Lemma sample_environment_clean auto :
  PostMerge.clean (PostMerge.sample_environment auto).
Proof. repeat split. Defined.

Lemma update_command_targets_witness :
  PostMerge.clean (PostMerge.sample_environment "1")
  ∧ ∃ python javascript database : bool,
      PostMerge.update_command (PostMerge.sample_environment "1")
        PostMerge.sample_files
      = "make " +:+ (if python then "install-py-dev " else "")
        +:+ (if javascript then "install-js-dev " else "")
        +:+ (if database then "apply-migrations " else "")
      ∧ (python = true
         ↔ PostMerge.changed PostMerge.requirements PostMerge.sample_files)
      ∧ (javascript = true
         ↔ PostMerge.changed PostMerge.yarn_lock PostMerge.sample_files)
      ∧ (database = true
         ↔ PostMerge.changed PostMerge.migrations PostMerge.sample_files).
Proof.
  split; [exact (sample_environment_clean "1")|].
  exact (PostMergeFacts.update_command_targets
           (PostMerge.sample_environment "1") PostMerge.sample_files
           (sample_environment_clean "1")).
Defined.

Lemma post_merge_silent_iff_witness :
  PostMerge.clean (PostMerge.sample_environment "1")
  ∧ (PostMerge.post_merge (PostMerge.sample_environment "1") ["README.md"] = []
     ↔ ¬ PostMerge.changed
           (PostMerge.requirements ++ PostMerge.yarn_lock ++ PostMerge.migrations)
           ["README.md"]).
Proof.
  split; [exact (sample_environment_clean "1")|].
  exact (PostMergeFacts.post_merge_silent_iff
           (PostMerge.sample_environment "1") ["README.md"]
           (sample_environment_clean "1")).
Defined.


Lemma post_merge_monotone_witness :
  ["yarn.lock"] ⊆ ["README.md"; "yarn.lock"]
  ∧ PostMerge.post_merge (PostMerge.sample_environment "") ["yarn.lock"] ≠ []
  ∧ PostMerge.post_merge (PostMerge.sample_environment "")
      ["README.md"; "yarn.lock"] ≠ [].
Proof.
  assert (Hsub : ["yarn.lock"] ⊆ ["README.md"; "yarn.lock"]).
  { intros line Hline. apply list_elem_of_singleton in Hline as ->.
    right. left. }
  assert (Hfirst : PostMerge.post_merge (PostMerge.sample_environment "")
                     ["yarn.lock"] ≠ [])
    by (rewrite post_merge_sample_notice_only; discriminate).
  split; [exact Hsub|]. split; [exact Hfirst|].
  exact (PostMergeFacts.post_merge_monotone (PostMerge.sample_environment "")
           ["yarn.lock"] ["README.md"; "yarn.lock"] Hsub Hfirst).
Defined.
